(** * mcp-konnect: the Konnect request client and the tool catalog

    A shallow embedding of [src/api.ts] (class [KongApi]) and [src/tools.ts]
    (the [tools] catalog builder), with the properties of the request
    surface stated and proved over it.

    Conventions of the embedding.
    - A JavaScript string is a [string]: the sequence of its UTF-16 code
      units, for the strings whose code units are all below 256.
    - A JavaScript number is a [Z]: the integer-valued numbers that print
      in decimal, which the page, size and status arguments are.
    - An optional argument [x?: T] is an [option T]; [None] is [undefined].
    - A JavaScript object used as a record of named properties is the list
      of its properties in the order they are enumerated.
    - A method of the client is a function of the client object and of the
      world: the environment it may read, the console it writes to and the
      requests sent so far. It returns a value or a thrown error, and the
      world it leaves.
    - The transport ([axios]) with the remote service behind it is a
      variable: a function from the requests already sent and the request
      being sent to the outcome of that request. *)

From Stdlib Require Import ZArith List String Ascii Bool Lia DecimalString.
Import ListNotations.

Open Scope string_scope.

(** ** JavaScript primitives used by the client *)

Module Js.

(** [String(n)] and template-literal interpolation of an integer-valued
    number. *)
Definition number_to_string (n : Z) : string :=
  NilZero.string_of_int (Z.to_int n).

(** [String(b)] for a boolean. *)
Definition boolean_to_string (b : bool) : string :=
  if b then "true" else "false".

(** ToBoolean on numbers and on strings. *)
Definition truthy_number (n : Z) : bool := negb (n =? 0)%Z.

Definition truthy_string (s : string) : bool :=
  match s with
  | EmptyString => false
  | String _ _ => true
  end.

(** [s.startsWith(p)] *)
Definition startsWith (s p : string) : bool := String.prefix p s.

(** The characters of [s] from position [n] on. *)
Fixpoint drop (n : nat) (s : string) : string :=
  match n, s with
  | O, _ => s
  | S _, EmptyString => EmptyString
  | S n', String _ s' => drop n' s'
  end.

(** [s.replace(pat, rep)] for a string pattern: the first occurrence of
    [pat], scanning from the left, is replaced by [rep]; a string with no
    occurrence is returned as it is. ([rep] holds no [$] pattern.) *)
Fixpoint replace (s pat rep : string) : string :=
  if String.prefix pat s then rep ++ drop (String.length pat) s
  else match s with
       | EmptyString => EmptyString
       | String c s' => String c (replace s' pat rep)
       end.

(** [s.includes(p)] *)
Fixpoint includes (s p : string) : bool :=
  if String.prefix p s then true
  else match s with
       | EmptyString => false
       | String _ s' => includes s' p
       end.

(** [s.substring(a, b)] for non-negative indices: both are clamped to the
    length and swapped when [a > b]. *)
Definition substring (s : string) (a b : nat) : string :=
  String.substring (Nat.min a b) (Nat.max a b - Nat.min a b) s.

(** *** encodeURIComponent *)

Definition between (lo hi n : nat) : bool := (lo <=? n)%nat && (n <=? hi)%nat.

(** The characters [encodeURIComponent] leaves alone:
    [A-Z a-z 0-9 - _ . ! ~ * ' ( )]. *)
Definition unreserved (c : ascii) : bool :=
  let n := nat_of_ascii c in
  between 65 90 n || between 97 122 n || between 48 57 n
  || existsb (Nat.eqb n) [45; 95; 46; 33; 126; 42; 39; 40; 41]%nat.

Definition hex_digit (n : nat) : ascii :=
  ascii_of_nat (if (n <? 10)%nat then 48 + n else 55 + n).

(** One escaped octet, [%XX] with upper-case hexadecimal digits. *)
Definition percent (n : nat) : string :=
  String "%" (String (hex_digit (n / 16)) (String (hex_digit (n mod 16)) "")).

(** A code unit below 128 is one UTF-8 octet, one from 128 to 255 is the
    two octets [110000xx 10xxxxxx]. *)
Definition encode_unit (c : ascii) : string :=
  let n := nat_of_ascii c in
  if unreserved c then String c ""
  else if (n <? 128)%nat then percent n
  else percent (192 + n / 64) ++ percent (128 + n mod 64).

Fixpoint encodeURIComponent (s : string) : string :=
  match s with
  | EmptyString => EmptyString
  | String c s' => encode_unit c ++ encodeURIComponent s'
  end.

End Js.

(** ** JavaScript values: request bodies and response bodies *)

#[local] Set Warnings "-register-all".

Inductive value : Type :=
| VNull
| VBool (b : bool)
| VNumber (n : Z)
| VString (s : string)
| VArray (elements : list value)
| VObject (properties : list (string * value)).

Module Value.

(** [typeof v]; [null] and arrays answer ["object"]. *)
Definition typeof (v : value) : string :=
  match v with
  | VNull => "object"
  | VBool _ => "boolean"
  | VNumber _ => "number"
  | VString _ => "string"
  | VArray _ => "object"
  | VObject _ => "object"
  end.

(** ToBoolean *)
Definition truthy (v : value) : bool :=
  match v with
  | VNull => false
  | VBool b => b
  | VNumber n => Js.truthy_number n
  | VString s => Js.truthy_string s
  | VArray _ => true
  | VObject _ => true
  end.

(** Own property of an object written as the list of its properties, each
    key once. *)
Fixpoint lookup (key : string) (properties : list (string * value)) : option value :=
  match properties with
  | [] => None
  | (k, v) :: rest => if (k =? key)%string then Some v else lookup key rest
  end.

(** [v.key] on a value that is not [null]: [None] is [undefined]. Reading a
    property of [null] throws and is handled where it happens. *)
Definition get (v : value) (key : string) : option value :=
  match v with
  | VObject properties => lookup key properties
  | _ => None
  end.

(** The double quote, code unit 34. *)
Definition dquote : string := String (ascii_of_nat 34) "".

(** The escape of one code unit inside a JSON string literal. *)
Definition escape_unit (c : ascii) : string :=
  let n := nat_of_ascii c in
  if (n =? 34)%nat then "\" ++ dquote
  else if (n =? 92)%nat then "\\"
  else if (n =? 8)%nat then "\b"
  else if (n =? 12)%nat then "\f"
  else if (n =? 10)%nat then "\n"
  else if (n =? 13)%nat then "\r"
  else if (n =? 9)%nat then "\t"
  else if (n <? 32)%nat then
    "\u00" ++ String (ascii_of_nat (48 + n / 16))
                (String (ascii_of_nat (let d := (n mod 16)%nat in
                                       if (d <? 10)%nat then 48 + d else 87 + d)) "")
  else String c "".

Fixpoint escape (s : string) : string :=
  match s with
  | EmptyString => EmptyString
  | String c s' => escape_unit c ++ escape s'
  end.

Definition quote (s : string) : string := dquote ++ escape s ++ dquote.

(** [JSON.stringify(v)] with no indentation. *)
Fixpoint stringify (v : value) : string :=
  match v with
  | VNull => "null"
  | VBool b => Js.boolean_to_string b
  | VNumber n => Js.number_to_string n
  | VString s => quote s
  | VArray elements => "[" ++ String.concat "," (map stringify elements) ++ "]"
  | VObject properties =>
      "{" ++ String.concat ","
               (map (fun p => quote (fst p) ++ ":" ++ stringify (snd p)) properties)
          ++ "}"
  end.

(** ToString, as a template literal applies it. *)
Fixpoint to_string (v : value) : string :=
  match v with
  | VNull => "null"
  | VBool b => Js.boolean_to_string b
  | VNumber n => Js.number_to_string n
  | VString s => s
  | VArray elements =>
      String.concat ","
        (map (fun e => match e with VNull => "" | _ => to_string e end) elements)
  | VObject _ => "[object Object]"
  end.

End Value.

(** ** The transport: requests, responses and thrown errors *)

Record AxiosRequestConfig : Type := mkConfig {
  cfg_method : string;
  cfg_url : string;
  cfg_headers : list (string * string);
  (** [None] is [data: undefined]: the request is sent with no body. *)
  cfg_data : option value
}.

Record AxiosResponse : Type := mkResponse {
  resp_status : Z;
  resp_data : value
}.

Inductive ErrorName : Type := Error | TypeError | AxiosError.

(** A thrown error object, with the three properties the client reads.
    [err_request] says whether [error.request] is set. *)
Record JsError : Type := mkError {
  err_name : ErrorName;
  err_message : string;
  err_response : option AxiosResponse;
  err_request : bool
}.

(** [new Error(message)] *)
Definition new_Error (message : string) : JsError :=
  mkError Error message None false.

(** The error of reading property [key] of [null]. *)
Definition null_property_error (key : string) : JsError :=
  mkError TypeError ("Cannot read properties of null (reading '" ++ key ++ "')") None false.

(** A line written with [console.error]. The dump of the response body
    (pretty-printed and cut at 500 code units) is kept as the body itself;
    a response always has a body, [""] when the server sent none. *)
Inductive ConsoleLine : Type :=
| Line (text : string)
| ApiRequestErrorLine (message : string)
| ResponseDataLine (data : value).

(** [process.env], the two variables the client reads. *)
Record ProcessEnv : Type := mkEnv {
  KONNECT_REGION : option string;
  KONNECT_ACCESS_TOKEN : option string
}.

(** What a call can read and change outside the client object. *)
Record World : Type := mkWorld {
  env : ProcessEnv;
  console : list ConsoleLine;
  sent : list AxiosRequestConfig
}.

(** A computation that returns or throws, threading the world. *)
Definition Eff (A : Type) : Type := World -> (JsError + A) * World.

Definition ret {A} (a : A) : Eff A := fun w => (inr a, w).

Definition throw {A} (e : JsError) : Eff A := fun w => (inl e, w).

Definition bind {A B} (m : Eff A) (k : A -> Eff B) : Eff B :=
  fun w =>
    match m w with
    | (inl e, w') => (inl e, w')
    | (inr a, w') => k a w'
    end.

(** [try { body } catch (error) { handler }] *)
Definition try_catch {A} (body : Eff A) (handler : JsError -> Eff A) : Eff A :=
  fun w =>
    match body w with
    | (inl e, w') => handler e w'
    | (inr a, w') => (inr a, w')
    end.

Definition console_error (l : ConsoleLine) : Eff unit :=
  fun w => (inr tt, mkWorld (env w) (console w ++ [l]) (sent w)).

Definition read_env : Eff ProcessEnv := fun w => (inr (env w), w).

Notation "x <- m ;; k" := (bind m (fun x => k))
  (at level 61, m at next level, right associativity).
Notation "m ;;; k" := (bind m (fun _ => k))
  (at level 61, right associativity).

(** [a || b] on optional strings: the first that is neither [undefined] nor
    empty. *)
Definition or_else (a : option string) (b : option string) : option string :=
  match a with
  | Some s => if Js.truthy_string s then a else b
  | None => b
  end.

Definition with_default {A} (d : A) (a : option A) : A :=
  match a with
  | Some x => x
  | None => d
  end.

(** ** src/api.ts *)

Module API_REGIONS.
Definition US := "us".
Definition EU := "eu".
Definition AU := "au".
Definition ME := "me".
Definition IN := "in".
End API_REGIONS.

Record KongApiOptions : Type := mkOptions {
  opt_apiKey : option string;
  opt_apiRegion : option string
}.

(** The private fields of a [KongApi] object. *)
Record KongApi : Type := mkKongApi {
  baseUrl : string;
  apiKey : string
}.

Definition missing_token_warning : string :=
  "Warning: KONNECT_ACCESS_TOKEN not set in environment. API calls will fail.".

Definition network_error_message : string :=
  "Network Error: No response received from Kong API. Please check your network connection and API endpoint configuration.".

Definition request_error_message (message : string) : string :=
  "Request Error: " ++ message ++ ". Please check your request parameters and try again.".

Section Client.

(** [axios(config)]: the outcome of sending [config] after the requests in
    the first argument were sent. *)
Variable axios : list AxiosRequestConfig -> AxiosRequestConfig -> JsError + AxiosResponse.

Definition await_axios (config : AxiosRequestConfig) : Eff AxiosResponse :=
  fun w =>
    (axios (sent w) config, mkWorld (env w) (console w) (sent w ++ [config])).

(** [new KongApi(options)]; [options] defaults to [{}]. *)
Definition constructor (options : option KongApiOptions) : Eff KongApi :=
  let options := with_default (mkOptions None None) options in
  process_env <- read_env ;;
  let apiRegion :=
    with_default API_REGIONS.US
      (or_else (or_else (opt_apiRegion options) (KONNECT_REGION process_env))
               (Some API_REGIONS.US)) in
  let this_baseUrl := "https://" ++ apiRegion ++ ".api.konghq.com/v2" in
  let this_apiKey :=
    with_default ""
      (or_else (or_else (opt_apiKey options) (KONNECT_ACCESS_TOKEN process_env))
               (Some "")) in
  (if negb (Js.truthy_string this_apiKey)
   then console_error (Line missing_token_warning)
   else ret tt) ;;;
  ret (mkKongApi this_baseUrl this_apiKey).

(** The branch [if (error.response)] of the [catch] block: the text thrown
    for a failure that carries a response. [typeof errorData] is
    ["object"] for [null] too, and reading [errorData.message] of [null]
    throws a [TypeError] in place of the error being built. *)
Definition remote_error (response : AxiosResponse) : Eff value :=
  let errorData := resp_data response in
  let errorMessage :=
    "API Error (Status " ++ Js.number_to_string (resp_status response) ++ ")" in
  if (Value.typeof errorData =? "object")%string then
    match errorData with
    | VNull => throw (null_property_error "message")
    | _ =>
        let errorDetails :=
          match Value.get errorData "message" with
          | Some m => if Value.truthy m then m
                      else VString (Value.stringify errorData)
          | None => VString (Value.stringify errorData)
          end in
        throw (new_Error (errorMessage ++ ": " ++ Value.to_string errorDetails))
    end
  else if (Value.typeof errorData =? "string")%string then
    match errorData with
    | VString text =>
        throw (new_Error (errorMessage ++ ": " ++ Js.substring text 0 200))
    | _ => throw (new_Error errorMessage)
    end
  else throw (new_Error errorMessage).

(** [kongRequest(endpoint, method = "GET", data = null)] *)
Definition kongRequest (this : KongApi) (endpoint : string)
    (method : option string) (data : option value) : Eff value :=
  let method := with_default "GET" method in
  let data := with_default VNull data in
  try_catch
    (let baseUrl0 := baseUrl this in
     let baseUrl1 :=
       if Js.startsWith endpoint "/v3" then Js.replace baseUrl0 "/v2" ""
       else baseUrl0 in
     let url := baseUrl1 ++ endpoint in
     console_error (Line ("Making request to: " ++ url)) ;;;
     let headers :=
       [ ("Authorization", "Bearer " ++ apiKey this);
         ("Content-Type", "application/json");
         ("Accept", "application/json") ] in
     let config :=
       mkConfig method url headers (if Value.truthy data then Some data else None) in
     console_error (Line "Sending request...") ;;;
     response <- await_axios config ;;
     console_error
       (Line ("Received response with status: "
              ++ Js.number_to_string (resp_status response))) ;;;
     console_error (ResponseDataLine (resp_data response)) ;;;
     ret (resp_data response))
    (fun error =>
       console_error (ApiRequestErrorLine (err_message error)) ;;;
       match err_response error with
       | Some response => remote_error response
       | None =>
           if err_request error then throw (new_Error network_error_message)
           else throw (new_Error (request_error_message (err_message error)))
       end).

(** *** The operations

    Each operation builds the arguments of one [kongRequest] call; the
    arguments are kept as a record so that they can be compared. *)

Record KongRequestArgs : Type := mkArgs {
  arg_endpoint : string;
  arg_method : option string;
  arg_data : option value
}.

Definition send (this : KongApi) (a : KongRequestArgs) : Eff value :=
  kongRequest this (arg_endpoint a) (arg_method a) (arg_data a).

(** [if (x) then_ else else_] on an optional number, an optional string,
    and [if (x !== undefined)] on an optional boolean. *)
Definition if_number {A} (x : option Z) (then_ : Z -> A) (else_ : A) : A :=
  match x with
  | Some n => if Js.truthy_number n then then_ n else else_
  | None => else_
  end.

Definition if_string {A} (x : option string) (then_ : string -> A) (else_ : A) : A :=
  match x with
  | Some s => if Js.truthy_string s then then_ s else else_
  | None => else_
  end.

Definition if_defined {A B} (x : option B) (then_ : B -> A) (else_ : A) : A :=
  match x with
  | Some b => then_ b
  | None => else_
  end.

(** Analytics *)

Definition queryApiRequests_args (timeRange : string)
    (filters : option (list value)) (maxResults : option Z) : KongRequestArgs :=
  let filters := with_default [] filters in
  let maxResults := with_default 100%Z maxResults in
  let requestBody :=
    VObject
      [ ("time_range",
         VObject [ ("type", VString "relative"); ("time_range", VString timeRange) ]);
        ("filters", VArray filters);
        ("size", VNumber maxResults) ] in
  mkArgs "/api-requests" (Some "POST") (Some requestBody).

Definition queryApiRequests (this : KongApi) timeRange filters maxResults : Eff value :=
  send this (queryApiRequests_args timeRange filters maxResults).

(** Control planes *)

Definition listControlPlanes_args (pageSize pageNumber : option Z)
    (filterName filterClusterType : option string)
    (filterCloudGateway : option bool) (labels sort : option string)
  : KongRequestArgs :=
  let pageSize := with_default 10%Z pageSize in
  let endpoint := "/control-planes?page[size]=" ++ Js.number_to_string pageSize in
  let endpoint :=
    if_number pageNumber
      (fun pageNumber => endpoint ++ "&page[number]=" ++ Js.number_to_string pageNumber)
      endpoint in
  let endpoint :=
    if_string filterName
      (fun filterName =>
         endpoint ++ "&filter[name][contains]=" ++ Js.encodeURIComponent filterName)
      endpoint in
  let endpoint :=
    if_string filterClusterType
      (fun filterClusterType =>
         endpoint ++ "&filter[cluster_type][eq]="
                  ++ Js.encodeURIComponent filterClusterType)
      endpoint in
  let endpoint :=
    if_defined filterCloudGateway
      (fun filterCloudGateway =>
         endpoint ++ "&filter[cloud_gateway]="
                  ++ Js.boolean_to_string filterCloudGateway)
      endpoint in
  let endpoint :=
    if_string labels
      (fun labels => endpoint ++ "&labels=" ++ Js.encodeURIComponent labels)
      endpoint in
  let endpoint :=
    if_string sort
      (fun sort => endpoint ++ "&sort=" ++ Js.encodeURIComponent sort)
      endpoint in
  mkArgs endpoint None None.


Definition getControlPlane_args (controlPlaneId : string) : KongRequestArgs :=
  mkArgs ("/control-planes/" ++ controlPlaneId) None None.

Definition getControlPlane (this : KongApi) controlPlaneId : Eff value :=
  send this (getControlPlane_args controlPlaneId).

Definition listControlPlaneGroupMemberships_args (groupId : string)
    (pageSize : option Z) (pageAfter : option string) : KongRequestArgs :=
  let pageSize := with_default 10%Z pageSize in
  let endpoint :=
    "/control-planes/" ++ groupId ++ "/group-memberships?page[size]="
      ++ Js.number_to_string pageSize in
  let endpoint :=
    if_string pageAfter
      (fun pageAfter => endpoint ++ "&page[after]=" ++ pageAfter)
      endpoint in
  mkArgs endpoint None None.


Definition checkControlPlaneGroupMembership_args (controlPlaneId : string)
  : KongRequestArgs :=
  mkArgs ("/control-planes/" ++ controlPlaneId ++ "/group-member-status") None None.


(** Configuration: the four listings differ in the entity name only. *)

Definition core_entities_args (entity : string) (controlPlaneId : string)
    (size : option Z) (offset : option string) : KongRequestArgs :=
  let size := with_default 100%Z size in
  let endpoint :=
    "/control-planes/" ++ controlPlaneId ++ "/core-entities/" ++ entity ++ "?size="
      ++ Js.number_to_string size in
  let endpoint :=
    if_string offset (fun offset => endpoint ++ "&offset=" ++ offset) endpoint in
  mkArgs endpoint None None.

Definition listServices_args := core_entities_args "services".





(** Dev portal: every endpoint is under [/v3]. *)

Definition listDevPortalApis_args (controlPlaneId : string)
    (pageSize pageNumber : option Z) (filterName : option string)
    (filterPublished : option bool) (sort : option string) : KongRequestArgs :=
  let pageSize := with_default 10%Z pageSize in
  let endpoint := "/v3/apis?page[size]=" ++ Js.number_to_string pageSize in
  let endpoint :=
    if_number pageNumber
      (fun pageNumber => endpoint ++ "&page[number]=" ++ Js.number_to_string pageNumber)
      endpoint in
  let endpoint :=
    if_string filterName
      (fun filterName =>
         endpoint ++ "&filter[name][contains]=" ++ Js.encodeURIComponent filterName)
      endpoint in
  let endpoint :=
    if_defined filterPublished
      (fun filterPublished =>
         endpoint ++ "&filter[published]=" ++ Js.boolean_to_string filterPublished)
      endpoint in
  let endpoint :=
    if_string sort
      (fun sort => endpoint ++ "&sort=" ++ Js.encodeURIComponent sort)
      endpoint in
  mkArgs endpoint None None.

Definition listDevPortalApis (this : KongApi) controlPlaneId pageSize pageNumber
    filterName filterPublished sort : Eff value :=
  send this (listDevPortalApis_args controlPlaneId pageSize pageNumber filterName
               filterPublished sort).

Definition createDevPortalApplication_args (controlPlaneId name description : string)
  : KongRequestArgs :=
  let endpoint := "/v3/applications" in
  let data := VObject [ ("name", VString name); ("description", VString description) ] in
  mkArgs endpoint (Some "POST") (Some data).

Definition createDevPortalApplication (this : KongApi) controlPlaneId name
    description : Eff value :=
  send this (createDevPortalApplication_args controlPlaneId name description).



Definition listDevPortalApplications_args (controlPlaneId : string)
    (pageSize pageNumber : option Z) (filterName sort : option string)
  : KongRequestArgs :=
  let pageSize := with_default 10%Z pageSize in
  let endpoint := "/v3/applications?page[size]=" ++ Js.number_to_string pageSize in
  let endpoint :=
    if_number pageNumber
      (fun pageNumber => endpoint ++ "&page[number]=" ++ Js.number_to_string pageNumber)
      endpoint in
  let endpoint :=
    if_string filterName
      (fun filterName =>
         endpoint ++ "&filter[name][contains]=" ++ Js.encodeURIComponent filterName)
      endpoint in
  let endpoint :=
    if_string sort
      (fun sort => endpoint ++ "&sort=" ++ Js.encodeURIComponent sort)
      endpoint in
  mkArgs endpoint None None.

Definition listDevPortalApplications (this : KongApi) controlPlaneId pageSize
    pageNumber filterName sort : Eff value :=
  send this (listDevPortalApplications_args controlPlaneId pageSize pageNumber
               filterName sort).

Definition createDevPortalSubscription_args (controlPlaneId apiId applicationId : string)
  : KongRequestArgs :=
  let endpoint := "/v3/subscriptions" in
  let data :=
    VObject [ ("api", VObject [ ("id", VString apiId) ]);
              ("application", VObject [ ("id", VString applicationId) ]) ] in
  mkArgs endpoint (Some "POST") (Some data).

Definition createDevPortalSubscription (this : KongApi) controlPlaneId apiId
    applicationId : Eff value :=
  send this (createDevPortalSubscription_args controlPlaneId apiId applicationId).

Definition listDevPortalSubscriptions_args (controlPlaneId : string)
    (applicationId apiId : option string) (pageSize pageNumber : option Z)
    (status sort : option string) : KongRequestArgs :=
  let pageSize := with_default 10%Z pageSize in
  let endpoint := "/v3/subscriptions?page[size]=" ++ Js.number_to_string pageSize in
  let endpoint :=
    if_number pageNumber
      (fun pageNumber => endpoint ++ "&page[number]=" ++ Js.number_to_string pageNumber)
      endpoint in
  let endpoint :=
    if_string applicationId
      (fun applicationId => endpoint ++ "&filter[application.id][eq]=" ++ applicationId)
      endpoint in
  let endpoint :=
    if_string apiId
      (fun apiId => endpoint ++ "&filter[api.id][eq]=" ++ apiId)
      endpoint in
  let endpoint :=
    if_string status
      (fun status => endpoint ++ "&filter[status][eq]=" ++ status)
      endpoint in
  let endpoint :=
    if_string sort
      (fun sort => endpoint ++ "&sort=" ++ Js.encodeURIComponent sort)
      endpoint in
  mkArgs endpoint None None.

Definition listDevPortalSubscriptions (this : KongApi) controlPlaneId applicationId
    apiId pageSize pageNumber status sort : Eff value :=
  send this (listDevPortalSubscriptions_args controlPlaneId applicationId apiId
               pageSize pageNumber status sort).

Definition createDevPortalApiKey_args (controlPlaneId subscriptionId name : string)
    (expiresIn : option Z) : KongRequestArgs :=
  let endpoint := "/v3/api-keys" in
  let data :=
    [ ("name", VString name);
      ("subscription", VObject [ ("id", VString subscriptionId) ]) ] in
  let data :=
    if_number expiresIn
      (fun expiresIn => (data ++ [ ("expires_in", VNumber expiresIn) ])%list)
      data in
  mkArgs endpoint (Some "POST") (Some (VObject data)).

Definition createDevPortalApiKey (this : KongApi) controlPlaneId subscriptionId name
    expiresIn : Eff value :=
  send this (createDevPortalApiKey_args controlPlaneId subscriptionId name expiresIn).

End Client.

(** ** src/tools.ts *)

Module Catalog.

Record Tool (ZodObject : Type) : Type := mkTool {
  method : string;
  name : string;
  description : string;
  parameters : ZodObject;
  category : string
}.

Arguments mkTool {ZodObject}.
Arguments method {ZodObject}.
Arguments name {ZodObject}.
Arguments description {ZodObject}.
Arguments parameters {ZodObject}.
Arguments category {ZodObject}.

(** The module [./prompts.js]: one function per tool, each returning its
    description text. The module is not part of the sources at hand and is
    taken as given. *)
Record PromptsModule : Type := mkPrompts {
  queryApiRequestsPrompt : unit -> string;
  getConsumerRequestsPrompt : unit -> string;
  listServicesPrompt : unit -> string;
  listRoutesPrompt : unit -> string;
  listConsumersPrompt : unit -> string;
  listPluginsPrompt : unit -> string;
  listControlPlanesPrompt : unit -> string;
  getControlPlanePrompt : unit -> string;
  listControlPlaneGroupMembershipsPrompt : unit -> string;
  checkControlPlaneGroupMembershipPrompt : unit -> string;
  listApisPrompt : unit -> string;
  listPortalsPrompt : unit -> string;
  subscribeToApiPrompt : unit -> string;
  generateApiKeyPrompt : unit -> string;
  listApplicationsPrompt : unit -> string;
  listSubscriptionsPrompt : unit -> string
}.

(** The module [./parameters.js]: one function per tool, each returning
    its schema. Taken as given, like the prompts. *)
Record ParametersModule (ZodObject : Type) : Type := mkParameters {
  queryApiRequestsParameters : unit -> ZodObject;
  getConsumerRequestsParameters : unit -> ZodObject;
  listServicesParameters : unit -> ZodObject;
  listRoutesParameters : unit -> ZodObject;
  listConsumersParameters : unit -> ZodObject;
  listPluginsParameters : unit -> ZodObject;
  listControlPlanesParameters : unit -> ZodObject;
  getControlPlaneParameters : unit -> ZodObject;
  listControlPlaneGroupMembershipsParameters : unit -> ZodObject;
  checkControlPlaneGroupMembershipParameters : unit -> ZodObject;
  listApisParameters : unit -> ZodObject;
  listPortalsParameters : unit -> ZodObject;
  subscribeToApiParameters : unit -> ZodObject;
  generateApiKeyParameters : unit -> ZodObject;
  listApplicationsParameters : unit -> ZodObject;
  listSubscriptionsParameters : unit -> ZodObject
}.

Arguments queryApiRequestsParameters {ZodObject}.
Arguments getConsumerRequestsParameters {ZodObject}.
Arguments listServicesParameters {ZodObject}.
Arguments listRoutesParameters {ZodObject}.
Arguments listConsumersParameters {ZodObject}.
Arguments listPluginsParameters {ZodObject}.
Arguments listControlPlanesParameters {ZodObject}.
Arguments getControlPlaneParameters {ZodObject}.
Arguments listControlPlaneGroupMembershipsParameters {ZodObject}.
Arguments checkControlPlaneGroupMembershipParameters {ZodObject}.
Arguments listApisParameters {ZodObject}.
Arguments listPortalsParameters {ZodObject}.
Arguments subscribeToApiParameters {ZodObject}.
Arguments generateApiKeyParameters {ZodObject}.
Arguments listApplicationsParameters {ZodObject}.
Arguments listSubscriptionsParameters {ZodObject}.

(** The store of objects: an address is a position in the store, and an
    allocation extends the store at its end. *)
Definition loc : Type := nat.

Inductive object (ZodObject : Type) : Type :=
| ToolObject (t : Tool ZodObject)
| ArrayObject (elements : list loc).

Arguments ToolObject {ZodObject}.
Arguments ArrayObject {ZodObject}.

Definition heap (ZodObject : Type) : Type := list (object ZodObject).

Definition alloc {T} (o : object T) (h : heap T) : loc * heap T :=
  (List.length h, (h ++ [o])%list).

(** The elements of an array literal are evaluated from left to right. *)
Fixpoint alloc_all {T} (os : list (object T)) (h : heap T) : list loc * heap T :=
  match os with
  | [] => ([], h)
  | o :: rest =>
      let (l, h1) := alloc o h in
      let (ls, h2) := alloc_all rest h1 in
      (l :: ls, h2)
  end.

Definition read_tool {T} (h : heap T) (l : loc) : option (Tool T) :=
  match nth_error h l with
  | Some (ToolObject t) => Some t
  | _ => None
  end.

Fixpoint read_tools {T} (h : heap T) (ls : list loc) : option (list (Tool T)) :=
  match ls with
  | [] => Some []
  | l :: rest =>
      match read_tool h l, read_tools h rest with
      | Some t, Some ts => Some (t :: ts)
      | _, _ => None
      end
  end.

Definition elements_of {T} (h : heap T) (a : loc) : option (list loc) :=
  match nth_error h a with
  | Some (ArrayObject ls) => Some ls
  | _ => None
  end.

(** The array at [a] read in depth: the records of its elements. *)
Definition read_array {T} (h : heap T) (a : loc) : option (list (Tool T)) :=
  match elements_of h a with
  | Some ls => read_tools h ls
  | None => None
  end.

Section Tools.

Variable ZodObject : Type.
Variable prompts : PromptsModule.
Variable parameters_ : ParametersModule ZodObject.

(** The object literals of the array, in the order of the source. *)
Definition tool_literals : list (Tool ZodObject) :=
  [
    mkTool "query_api_requests" "Query API Requests"
      (queryApiRequestsPrompt prompts tt) (queryApiRequestsParameters parameters_ tt) "analytics";
    mkTool "get_consumer_requests" "Get Consumer Requests"
      (getConsumerRequestsPrompt prompts tt) (getConsumerRequestsParameters parameters_ tt) "analytics";
    mkTool "list_services" "List Services"
      (listServicesPrompt prompts tt) (listServicesParameters parameters_ tt) "configuration";
    mkTool "list_routes" "List Routes"
      (listRoutesPrompt prompts tt) (listRoutesParameters parameters_ tt) "configuration";
    mkTool "list_consumers" "List Consumers"
      (listConsumersPrompt prompts tt) (listConsumersParameters parameters_ tt) "configuration";
    mkTool "list_plugins" "List Plugins"
      (listPluginsPrompt prompts tt) (listPluginsParameters parameters_ tt) "configuration";
    mkTool "list_control_planes" "List Control Planes"
      (listControlPlanesPrompt prompts tt) (listControlPlanesParameters parameters_ tt) "control_planes";
    mkTool "get_control_plane" "Get Control Plane"
      (getControlPlanePrompt prompts tt) (getControlPlaneParameters parameters_ tt) "control_planes";
    mkTool "list_control_plane_group_memberships" "List Control Plane Group Memberships"
      (listControlPlaneGroupMembershipsPrompt prompts tt) (listControlPlaneGroupMembershipsParameters parameters_ tt) "control_planes";
    mkTool "check_control_plane_group_membership" "Check Control Plane Group Membership"
      (checkControlPlaneGroupMembershipPrompt prompts tt) (checkControlPlaneGroupMembershipParameters parameters_ tt) "control_planes";
    mkTool "list_apis" "List APIs"
      (listApisPrompt prompts tt) (listApisParameters parameters_ tt) "dev_portal";
    mkTool "list_portals" "List Portals"
      (listPortalsPrompt prompts tt) (listPortalsParameters parameters_ tt) "dev_portal";
    mkTool "subscribe_to_api" "Subscribe to API"
      (subscribeToApiPrompt prompts tt) (subscribeToApiParameters parameters_ tt) "dev_portal";
    mkTool "generate_api_key" "Generate API Key"
      (generateApiKeyPrompt prompts tt) (generateApiKeyParameters parameters_ tt) "dev_portal";
    mkTool "list_applications" "List Applications"
      (listApplicationsPrompt prompts tt) (listApplicationsParameters parameters_ tt) "dev_portal";
    mkTool "list_subscriptions" "List Subscriptions"
      (listSubscriptionsPrompt prompts tt) (listSubscriptionsParameters parameters_ tt) "dev_portal"
  ].

(** [tools()]: the address of a new array of new objects. *)
Definition tools (h : heap ZodObject) : loc * heap ZodObject :=
  let (ls, h1) := alloc_all (map ToolObject tool_literals) h in
  alloc (ArrayObject ls) h1.

End Tools.

(** A list is contiguous when no value comes back after another value
    has followed it. *)
Fixpoint skip_run (c : string) (l : list string) : list string :=
  match l with
  | [] => []
  | x :: rest => if (x =? c)%string then skip_run c rest else l
  end.

Fixpoint contiguousb (l : list string) : bool :=
  match l with
  | [] => true
  | c :: rest =>
      negb (existsb (String.eqb c) (skip_run c rest)) && contiguousb rest
  end.

End Catalog.

(** ** Fixtures for concrete runs *)

(** A world with an empty environment, an empty console and no request
    sent. *)
Definition quiet_world : World := mkWorld (mkEnv None None) [] [].

(** A transport that gives every request the same outcome. *)
Definition answering (outcome : JsError + AxiosResponse)
  : list AxiosRequestConfig -> AxiosRequestConfig -> JsError + AxiosResponse :=
  fun _ _ => outcome.

(** A transport whose first request fails with no response and whose later
    requests succeed. *)
Definition failing_once
  : list AxiosRequestConfig -> AxiosRequestConfig -> JsError + AxiosResponse :=
  fun history _ =>
    match history with
    | [] => inl (mkError AxiosError "socket hang up" None true)
    | _ :: _ => inr (mkResponse 200 (VObject []))
    end.

Definition us_client : KongApi := mkKongApi "https://us.api.konghq.com/v2" "kpat_token".

(** ** The request a call sends *)

(** The URL [kongRequest] resolves for an endpoint. *)
Definition resolved_url (this : KongApi) (endpoint : string) : string :=
  (if Js.startsWith endpoint "/v3" then Js.replace (baseUrl this) "/v2" ""
   else baseUrl this) ++ endpoint.

Definition request_headers (this : KongApi) : list (string * string) :=
  [ ("Authorization", "Bearer " ++ apiKey this);
    ("Content-Type", "application/json");
    ("Accept", "application/json") ].

Definition request_body (data : option value) : option value :=
  let d := with_default VNull data in
  if Value.truthy d then Some d else None.

Definition request_config (this : KongApi) (endpoint : string)
    (method : option string) (data : option value) : AxiosRequestConfig :=
  mkConfig (with_default "GET" method) (resolved_url this endpoint)
    (request_headers this) (request_body data).


(** ** The three kinds of failure *)





(** ** Query strings, as the design rule words them

    The rule of the specification: the optional arguments of an operation
    are an ordered list of (name, optional value, encode as free text?),
    folded into the query string by one shared helper. [keep] says which
    supplied values give a pair: [provided] keeps every supplied value, as
    the rule is worded; [kept] is the test the code applies. *)

Inductive ParamValue : Type :=
| PNumber (n : Z)
| PText (s : string)
| PFlag (b : bool).

Record QueryParam : Type := mkParam {
  qp_name : string;
  qp_value : option ParamValue;
  qp_encode : bool
}.

Definition render (encode : bool) (v : ParamValue) : string :=
  match v with
  | PNumber n => Js.number_to_string n
  | PText s => if encode then Js.encodeURIComponent s else s
  | PFlag b => Js.boolean_to_string b
  end.


Definition kept (v : ParamValue) : bool :=
  match v with
  | PNumber n => Js.truthy_number n
  | PText s => Js.truthy_string s
  | PFlag _ => true
  end.

Definition gives_pair (keep : ParamValue -> bool) (q : QueryParam) : bool :=
  match qp_value q with
  | Some v => keep v
  | None => false
  end.

Definition pair_of (keep : ParamValue -> bool) (q : QueryParam) : string :=
  match qp_value q with
  | Some v =>
      if keep v then "&" ++ qp_name q ++ "=" ++ render (qp_encode q) v else ""
  | None => ""
  end.

Fixpoint query_string (keep : ParamValue -> bool) (params : list QueryParam) : string :=
  match params with
  | [] => ""
  | q :: rest => pair_of keep q ++ query_string keep rest
  end.

Definition number_param (name : string) (x : option Z) : QueryParam :=
  mkParam name (option_map PNumber x) false.

(** A text value that is percent-encoded. *)
Definition text_param (name : string) (x : option string) : QueryParam :=
  mkParam name (option_map PText x) true.

(** A text value that is appended as it is. *)
Definition raw_param (name : string) (x : option string) : QueryParam :=
  mkParam name (option_map PText x) false.

Definition flag_param (name : string) (x : option bool) : QueryParam :=
  mkParam name (option_map PFlag x) false.

(** The number of separator characters, [&] and [?], in a string. *)
Definition is_separator (c : ascii) : bool :=
  let n := nat_of_ascii c in ((n =? 38) || (n =? 63))%nat.

Fixpoint separators (s : string) : nat :=
  match s with
  | EmptyString => 0
  | String c s' => (if is_separator c then 1 else 0) + separators s'
  end.



(** The same arguments in the order the code appends them. *)
Definition listDevPortalSubscriptions_appended (applicationId apiId : option string)
    (pageNumber : option Z) (status sort : option string) : list QueryParam :=
  [ number_param "page[number]" pageNumber;
    raw_param "filter[application.id][eq]" applicationId;
    raw_param "filter[api.id][eq]" apiId;
    raw_param "filter[status][eq]" status;
    text_param "sort" sort ].

(** Contiguity stated on positions: between two occurrences of a value
    there is nothing but that value. *)
Definition contiguous (l : list string) : Prop :=
  forall i j k c,
    i <= j -> j <= k ->
    nth_error l i = Some c -> nth_error l k = Some c -> nth_error l j = Some c.

(** ** Further measures on endpoints and on the store *)


(** The separators an optional text argument brings when it is appended as
    it is: the [&] of its pair and those of the text itself. *)
Definition raw_separators (x : option string) : nat :=
  match x with
  | Some s => if Js.truthy_string s then 1 + separators s else 0
  | None => 0
  end.

(** [n] invocations of [tools()] in a row: the addresses returned, first
    invocation first, and the store left. *)
Fixpoint tools_repeated (ZodObject : Type) (prompts : Catalog.PromptsModule)
    (parameters_ : Catalog.ParametersModule ZodObject) (n : nat)
    (h : Catalog.heap ZodObject) : list Catalog.loc * Catalog.heap ZodObject :=
  match n with
  | O => ([], h)
  | S n' =>
      let (a, h1) := Catalog.tools ZodObject prompts parameters_ h in
      let (rest, h2) := tools_repeated ZodObject prompts parameters_ n' h1 in
      (a :: rest, h2)
  end.

(** Running [run] in the world [w] sends the request [c] and no other. *)
Definition sends_only (run : Eff value) (w : World) (c : AxiosRequestConfig) : Prop :=
  sent (snd (run w)) = (sent w ++ [c])%list.

(** The first of the candidates that is a non-empty string, and [default]
    when there is none. *)
Fixpoint first_nonempty (candidates : list (option string)) (default : string) : string :=
  match candidates with
  | [] => default
  | Some s :: rest =>
      if Js.truthy_string s then s else first_nonempty rest default
  | None :: rest => first_nonempty rest default
  end.
(** * Properties *)

(** ** The primitives on examples *)

Example number_to_string_10 : Js.number_to_string 10 = "10".
Proof. reflexivity. Qed.

Example number_to_string_0 : Js.number_to_string 0 = "0".
Proof. reflexivity. Qed.

Example number_to_string_neg : Js.number_to_string (-42) = "-42".
Proof. reflexivity. Qed.

Example encode_free_text :
  Js.encodeURIComponent "a b&c=d?/e" = "a%20b%26c%3Dd%3F%2Fe".
Proof. reflexivity. Qed.

Example encode_latin1 :
  Js.encodeURIComponent (String (ascii_of_nat 233) "") = "%C3%A9".
Proof. reflexivity. Qed.

Example replace_first_only :
  Js.replace "https://v2.api.konghq.com/v2" "/v2" "" = "https:/.api.konghq.com/v2".
Proof. reflexivity. Qed.

Example stringify_object :
  Value.stringify (VObject [("code", VNumber 7); ("tags", VArray [VString "a"; VNull])])
  = "{" ++ Value.dquote ++ "code" ++ Value.dquote ++ ":7,"
        ++ Value.dquote ++ "tags" ++ Value.dquote ++ ":["
        ++ Value.dquote ++ "a" ++ Value.dquote ++ ",null]}".
Proof. reflexivity. Qed.

(** ** Strings *)

Section StringFacts.

Lemma append_nil_r (s : string) : s ++ "" = s.
Proof. induction s as [|c s IH]; simpl; [reflexivity | now rewrite IH]. Qed.

Lemma append_assoc (a b c : string) : (a ++ b) ++ c = a ++ (b ++ c).
Proof. induction a as [|x a IH]; simpl; [reflexivity | now rewrite IH]. Qed.

Lemma length_append (a b : string) :
  String.length (a ++ b) = String.length a + String.length b.
Proof. induction a as [|x a IH]; simpl; [reflexivity | now rewrite IH]. Qed.

Lemma prefix_append (p s : string) : String.prefix p (p ++ s) = true.
Proof.
  induction p as [|c p IH]; simpl.
  - now destruct s.
  - destruct (ascii_dec c c) as [_|n]; [exact IH | now elim n].
Qed.

Lemma prefix_split (p s : string) :
  String.prefix p s = true -> s = p ++ Js.drop (String.length p) s.
Proof.
  revert s; induction p as [|c p IH]; intros s H; simpl.
  - reflexivity.
  - destruct s as [|d s]; simpl in H; [discriminate|].
    destruct (ascii_dec c d) as [->|_]; [|discriminate].
    simpl. f_equal. now apply IH.
Qed.



Lemma includes_append_r (a b p : string) :
  Js.includes b p = true -> Js.includes (a ++ b) p = true.
Proof.
  induction a as [|c a IH]; simpl; intros H; [exact H|].
  destruct p as [|x p]; [reflexivity|].
  destruct (ascii_dec x c); [destruct (String.prefix p (a ++ b))|]; auto.
Qed.

Lemma includes_prefix (s p : string) :
  String.prefix p s = true -> Js.includes s p = true.
Proof. intros H. destruct s; cbn [Js.includes]; now rewrite H. Qed.

Lemma includes_self_append (a p b : string) : Js.includes (a ++ p ++ b) p = true.
Proof. apply includes_append_r, includes_prefix, prefix_append. Qed.

Lemma length_substring_prefix (s : string) (n : nat) :
  n <= String.length s -> String.length (String.substring 0 n s) = n.
Proof.
  revert s; induction n as [|n IH]; intros s H.
  - now destruct s.
  - destruct s as [|c s]; simpl in *; [lia|]. rewrite IH; lia.
Qed.

Lemma substring_prefix_split (s : string) (n : nat) :
  s = String.substring 0 n s ++ Js.drop n s.
Proof.
  revert s; induction n as [|n IH]; intros s.
  - now destruct s.
  - destruct s as [|c s]; simpl; [reflexivity|]. now rewrite <- IH.
Qed.

End StringFacts.

(** ** The request a call sends *)

Ltac run_eff :=
  unfold kongRequest, send, try_catch, bind, console_error, await_axios, ret, throw;
  cbn [fst snd sent console env].

Section RequestSent.

Variable axios : list AxiosRequestConfig -> AxiosRequestConfig -> JsError + AxiosResponse.

Lemma remote_error_world (response : AxiosResponse) (w : World) :
  snd (remote_error response w) = w.
Proof.
  unfold remote_error.
  destruct (resp_data response) as [| | | |xs|ps]; cbn; try reflexivity.
Qed.


(** Every call sends exactly one request, the one built from its
    arguments, whatever the outcome. *)
Lemma kongRequest_sent (this : KongApi) endpoint method data (w : World) :
  sent (snd (kongRequest axios this endpoint method data w))
  = (sent w ++ [request_config this endpoint method data])%list.
Proof.
  run_eff.
  fold (resolved_url this endpoint) (request_headers this) (request_body data)
       (request_config this endpoint method data).
  destruct (axios _ _) as [error|response]; cbn.
  - destruct (err_response error) as [response|].
    + rewrite remote_error_world. reflexivity.
    + destruct (err_request error); reflexivity.
  - reflexivity.
Qed.

(** The environment is read by the constructor only. *)
Lemma kongRequest_env (this : KongApi) endpoint method data (w : World) :
  env (snd (kongRequest axios this endpoint method data w)) = env w.
Proof.
  run_eff.
  destruct (axios _ _) as [error|response]; cbn.
  - destruct (err_response error) as [response|].
    + rewrite remote_error_world. reflexivity.
    + destruct (err_request error); reflexivity.
  - reflexivity.
Qed.

End RequestSent.

(** ** Base URL resolution *)

Section UrlResolution.

Variable axios : list AxiosRequestConfig -> AxiosRequestConfig -> JsError + AxiosResponse.

(** No occurrence of [/v2] can begin in [s] and run over a full stop. *)
Lemma prefix_v2_before_dot (s rest : string) :
  String.prefix "/v2" s = false ->
  String.prefix "/v2" (s ++ String "." rest) = false.
Proof.
  intros H.
  destruct s as [|c [|d [|e s]]]; cbn [String.prefix append] in *;
    repeat match goal with
           | |- context [ascii_dec ?a ?b] => is_var b; destruct (ascii_dec a b)
           end;
    try reflexivity; try discriminate; destruct s; discriminate H.
Qed.

Lemma includes_cons_false (c : ascii) (s p : string) :
  Js.includes (String c s) p = false ->
  String.prefix p (String c s) = false /\ Js.includes s p = false.
Proof.
  cbn [Js.includes]. destruct (String.prefix p (String c s)); [discriminate|auto].
Qed.

Lemma replace_v2_after_clean (s rest rep : string) :
  Js.includes s "/v2" = false ->
  Js.replace (s ++ String "." rest) "/v2" rep
  = s ++ Js.replace (String "." rest) "/v2" rep.
Proof.
  induction s as [|c s IH]; intros H; [reflexivity|].
  apply includes_cons_false in H as [Hhere Hlater].
  change ((String c s) ++ String "." rest) with (String c (s ++ String "." rest)).
  cbn [Js.replace].
  change (String c (s ++ String "." rest)) with ((String c s) ++ String "." rest).
  rewrite (prefix_v2_before_dot (String c s) rest Hhere).
  cbn [append]. now rewrite IH.
Qed.

Lemma includes_v2_after_clean (s rest : string) :
  Js.includes s "/v2" = false ->
  Js.includes (s ++ String "." rest) "/v2" = Js.includes (String "." rest) "/v2".
Proof.
  induction s as [|c s IH]; intros H; [reflexivity|].
  apply includes_cons_false in H as [Hhere Hlater].
  change ((String c s) ++ String "." rest) with (String c (s ++ String "." rest)).
  cbn [Js.includes].
  change (String c (s ++ String "." rest)) with ((String c s) ++ String "." rest).
  rewrite (prefix_v2_before_dot (String c s) rest Hhere).
  now apply IH.
Qed.

Lemma region_base_url_stripped (region : string) :
  Js.includes ("https://" ++ region) "/v2" = false ->
  Js.replace ("https://" ++ region ++ ".api.konghq.com/v2") "/v2" ""
  = "https://" ++ region ++ ".api.konghq.com".
Proof.
  intros H.
  change ("https://" ++ region ++ ".api.konghq.com/v2")
    with (("https://" ++ region) ++ String "." "api.konghq.com/v2").
  rewrite (replace_v2_after_clean _ _ _ H). reflexivity.
Qed.

Lemma region_prefix_has_no_v2 (region endpoint : string) :
  Js.includes ("https://" ++ region) "/v2" = false ->
  Js.includes ("https://" ++ region ++ ".api.konghq.com" ++ endpoint) "/v2"
  = Js.includes endpoint "/v2".
Proof.
  intros H.
  change ("https://" ++ region ++ ".api.konghq.com" ++ endpoint)
    with (("https://" ++ region) ++ String "." ("api.konghq.com" ++ endpoint)).
  rewrite (includes_v2_after_clean _ _ H). reflexivity.
Qed.

(** C1, as the code has it. Take a client whose region brings no [/v2] of
    its own into the URL (the five regions of [API_REGIONS] do not). For an
    endpoint that begins with [/v3], the request goes to the base URL with
    its [/v2] segment removed, followed by the endpoint: the URL begins
    with [https://{region}.api.konghq.com/v3], and [/v2] occurs in it only
    where the endpoint itself holds it. For an endpoint that does not begin
    with [/v3] the base URL is used unchanged. *)
Theorem kongRequest_url_resolution
    (region key endpoint : string) (method : option string) (data : option value)
    (w : World) :
  Js.includes ("https://" ++ region) "/v2" = false ->
  let this := mkKongApi ("https://" ++ region ++ ".api.konghq.com/v2") key in
  exists config,
    sent (snd (kongRequest axios this endpoint method data w))
    = (sent w ++ [config])%list
    /\ (Js.startsWith endpoint "/v3" = true ->
        cfg_url config = "https://" ++ region ++ ".api.konghq.com" ++ endpoint
        /\ Js.startsWith (cfg_url config)
             ("https://" ++ region ++ ".api.konghq.com/v3") = true
        /\ Js.includes (cfg_url config) "/v2" = Js.includes endpoint "/v2")
    /\ (Js.startsWith endpoint "/v3" = false ->
        cfg_url config = "https://" ++ region ++ ".api.konghq.com/v2" ++ endpoint).
Proof.
  intros Hregion this.
  exists (request_config this endpoint method data).
  split; [apply kongRequest_sent|].
  cbn [request_config cfg_url]. unfold resolved_url.
  split; intros Hv3; rewrite Hv3.
  - cbn [baseUrl this].
    rewrite (region_base_url_stripped region Hregion), append_assoc, append_assoc.
    split; [reflexivity|]. split.
    + unfold Js.startsWith in *.
      rewrite (prefix_split "/v3" endpoint Hv3).
      replace ("https://" ++ region ++ ".api.konghq.com/v3")
        with ("https://" ++ region ++ ".api.konghq.com" ++ "/v3").
      * rewrite <- !append_assoc. apply prefix_append.
      * reflexivity.
    + apply region_prefix_has_no_v2, Hregion.
  - cbn [baseUrl this]. now rewrite !append_assoc.
Qed.

End UrlResolution.

Lemma kongRequest_url_resolution_witness :
  exists config,
    sent (snd (kongRequest (answering (inr (mkResponse 200 VNull))) us_client
                 "/v3/apis" None None quiet_world))
    = [config]
    /\ cfg_url config = "https://us.api.konghq.com/v3/apis".
Proof.
  destruct (kongRequest_url_resolution (answering (inr (mkResponse 200 VNull)))
              "us" "kpat_token" "/v3/apis" None None quiet_world)
    as [config [Hsent [Hv3 _]]].
  - reflexivity.
  - exists config. split; [exact Hsent|]. apply Hv3. reflexivity.
Defined.

(** The five regions of [API_REGIONS] bring no [/v2] into the URL. *)
Example api_regions_are_clean :
  forallb (fun region => negb (Js.includes ("https://" ++ region) "/v2"))
    [API_REGIONS.US; API_REGIONS.EU; API_REGIONS.AU; API_REGIONS.ME; API_REGIONS.IN]
  = true.
Proof. reflexivity. Qed.

(** C1 as the claim words it fails: an endpoint under [/v3] that holds
    [/v2] further on gives a URL that contains [/v2]. *)
Lemma kongRequest_v3_url_can_contain_v2 :
  Js.startsWith "/v3/apis/v2" "/v3" = true
  /\ map cfg_url
       (sent (snd (kongRequest (answering (inr (mkResponse 200 VNull))) us_client
                     "/v3/apis/v2" None None quiet_world)))
     = ["https://us.api.konghq.com/v3/apis/v2"]
  /\ Js.includes "https://us.api.konghq.com/v3/apis/v2" "/v2" = true.
Proof. repeat split. Qed.

(** ** Headers and body of a request *)

(** C9. Every call sends one request with exactly the three headers
    [Authorization: Bearer {credential}], [Content-Type: application/json]
    and [Accept: application/json]; the request has a body only if a body
    argument was given, and then it is that argument; with no body argument,
    or with [null], the body field is [undefined]. *)
Theorem kongRequest_headers_and_body
    (axios : list AxiosRequestConfig -> AxiosRequestConfig -> JsError + AxiosResponse)
    (this : KongApi) (endpoint : string) (method : option string)
    (data : option value) (w : World) :
  exists config,
    sent (snd (kongRequest axios this endpoint method data w))
    = (sent w ++ [config])%list
    /\ cfg_headers config
       = [ ("Authorization", "Bearer " ++ apiKey this);
           ("Content-Type", "application/json");
           ("Accept", "application/json") ]
    /\ (forall body, cfg_data config = Some body ->
          data = Some body /\ body <> VNull)
    /\ (data = None \/ data = Some VNull -> cfg_data config = None).
Proof.
  exists (request_config this endpoint method data).
  split; [apply kongRequest_sent|]. split; [reflexivity|].
  cbn [request_config cfg_data]. unfold request_body. split.
  - intros body H. destruct data as [d|]; cbn in H.
    + destruct (Value.truthy d) eqn:T; [|discriminate].
      injection H as <-. split; [reflexivity|]. intros ->. discriminate.
    + discriminate.
  - intros [->| ->]; reflexivity.
Qed.

Example get_request_has_no_body :
  map cfg_data
    (sent (snd (getControlPlane (answering (inr (mkResponse 200 VNull))) us_client
                  "cp-1" quiet_world)))
  = [None].
Proof. reflexivity. Qed.

Example post_request_has_its_body :
  map cfg_data
    (sent (snd (createDevPortalApplication (answering (inr (mkResponse 201 VNull)))
                  us_client "cp-1" "app" "demo" quiet_world)))
  = [Some (VObject [("name", VString "app"); ("description", VString "demo")])].
Proof. reflexivity. Qed.

(** ** Remote error responses *)

Section RemoteError.

Variable axios : list AxiosRequestConfig -> AxiosRequestConfig -> JsError + AxiosResponse.

(** A failure that carries a response is turned into what [remote_error]
    throws. *)
Lemma kongRequest_rejected_with_response
    (this : KongApi) endpoint method data (w : World) error response :
  axios (sent w) (request_config this endpoint method data) = inl error ->
  err_response error = Some response ->
  fst (kongRequest axios this endpoint method data w)
  = fst (remote_error response w).
Proof.
  intros Hax Hresp. run_eff.
  fold (resolved_url this endpoint) (request_headers this) (request_body data)
       (request_config this endpoint method data).
  rewrite Hax. cbn. rewrite Hresp.
  unfold remote_error.
  destruct (resp_data response) as [| | | |xs|ps]; cbn; reflexivity.
Qed.

Lemma status_in_prefix (status : Z) (rest : string) :
  Js.includes ("API Error (Status " ++ Js.number_to_string status ++ ")" ++ rest)
    (Js.number_to_string status) = true.
Proof. apply includes_self_append. Qed.

(** What the client throws for a response whose body is not [null]: the
    text begins with the status; an object with a non-empty string
    [message] adds that message, an object with no [message] adds its JSON
    text, a string adds its first 200 code units. *)
Lemma remote_error_message (response : AxiosResponse) (w : World) :
  resp_data response <> VNull ->
  let head_ := "API Error (Status " ++ Js.number_to_string (resp_status response) ++ ")" in
  exists rest,
    fst (remote_error response w) = inl (new_Error (head_ ++ rest))
    /\ Js.includes (head_ ++ rest) (Js.number_to_string (resp_status response)) = true
    /\ (forall ps m,
          resp_data response = VObject ps ->
          Value.lookup "message" ps = Some (VString m) -> m <> "" ->
          rest = ": " ++ m)
    /\ (forall ps,
          resp_data response = VObject ps ->
          Value.lookup "message" ps = None ->
          rest = ": " ++ Value.stringify (VObject ps))
    /\ (forall text,
          resp_data response = VString text ->
          rest = ": " ++ Js.substring text 0 200
          /\ (200 < String.length text ->
              String.length (Js.substring text 0 200) = 200
              /\ String.prefix (Js.substring text 0 200) text = true)).
Proof.
  intros Hnull head_.
  assert (Hstatus : forall rest,
             Js.includes (head_ ++ rest) (Js.number_to_string (resp_status response))
             = true).
  { intros rest. subst head_. rewrite !append_assoc. apply status_in_prefix. }
  unfold remote_error. fold head_. clearbody head_.
  destruct (resp_data response) as [|b|n|s|xs|ps] eqn:E;
    cbn [Value.typeof String.eqb Ascii.eqb Bool.eqb Value.get throw fst];
    try contradiction.
  - exists "". rewrite append_nil_r. split; [reflexivity|].
    split; [rewrite <- (append_nil_r head_); apply Hstatus|].
    repeat split; intros; discriminate.
  - exists "". rewrite append_nil_r. split; [reflexivity|].
    split; [rewrite <- (append_nil_r head_); apply Hstatus|].
    repeat split; intros; discriminate.
  - exists (": " ++ Js.substring s 0 200). split; [reflexivity|].
    split; [apply Hstatus|].
    split; [intros; discriminate|]. split; [intros; discriminate|].
    intros text [= <-]. split; [reflexivity|]. intros Hlen.
    unfold Js.substring. cbn [Nat.min Nat.max Nat.sub]. split.
    + apply length_substring_prefix. lia.
    + rewrite (substring_prefix_split s 200) at 2. apply prefix_append.
  - exists (": " ++ Value.stringify (VArray xs)). split; [reflexivity|].
    split; [apply Hstatus|].
    repeat split; intros; discriminate.
  - exists (": " ++ Value.to_string
                      match Value.lookup "message" ps with
                      | Some m => if Value.truthy m then m
                                  else VString (Value.stringify (VObject ps))
                      | None => VString (Value.stringify (VObject ps))
                      end).
    split; [reflexivity|].
    split; [apply Hstatus|].
    split; [|split; [|intros; discriminate]].
    + intros ps' m [= <-] Hm Hne. rewrite Hm. destruct m; [contradiction|reflexivity].
    + intros ps' [= <-] Hm. rewrite Hm. reflexivity.
Qed.

End RemoteError.

(** A response with status 404 and a JSON body with a message. *)
Example remote_error_with_message :
  fst (kongRequest
         (answering (inl (mkError AxiosError "Request failed with status code 404"
                            (Some (mkResponse 404
                                     (VObject [("message", VString "Not Found")])))
                            true)))
         us_client "/control-planes/x" None None quiet_world)
  = inl (new_Error "API Error (Status 404): Not Found").
Proof. reflexivity. Qed.

(** C3 at the input where the code departs from it: a response with status
    500 whose JSON body is [null]. [typeof null] is ["object"], the read of
    [errorData.message] throws, and what leaves [kongRequest] is that
    [TypeError], whose text holds no status code. *)
Theorem kongRequest_null_error_body :
  fst (kongRequest
         (answering (inl (mkError AxiosError "Request failed with status code 500"
                            (Some (mkResponse 500 VNull)) true)))
         us_client "/control-planes" None None quiet_world)
  = inl (null_property_error "message")
  /\ err_name (null_property_error "message") = TypeError
  /\ Js.includes (err_message (null_property_error "message")) "500" = false.
Proof. repeat split. Qed.

(** ** The three kinds of failure *)

Section Failures.

Variable axios : list AxiosRequestConfig -> AxiosRequestConfig -> JsError + AxiosResponse.

Lemma kongRequest_rejected (this : KongApi) endpoint method data (w : World) error :
  axios (sent w) (request_config this endpoint method data) = inl error ->
  fst (kongRequest axios this endpoint method data w)
  = match err_response error with
    | Some response => fst (remote_error response w)
    | None =>
        if err_request error then inl (new_Error network_error_message)
        else inl (new_Error (request_error_message (err_message error)))
    end.
Proof.
  intros Hax.
  destruct (err_response error) as [response|] eqn:Hresp.
  - now apply kongRequest_rejected_with_response with (error := error).
  - run_eff.
    fold (resolved_url this endpoint) (request_headers this) (request_body data)
         (request_config this endpoint method data).
    rewrite Hax. cbn. rewrite Hresp. destruct (err_request error); reflexivity.
Qed.


End Failures.


(** No retry: the transport would answer a second request, and the call
    still fails after its first. *)
Example no_retry_after_failure :
  failing_once [request_config us_client "/control-planes" None None]
    (request_config us_client "/control-planes" None None)
  = inr (mkResponse 200 (VObject []))
  /\ fst (kongRequest failing_once us_client "/control-planes" None None quiet_world)
     = inl (new_Error network_error_message).
Proof. split; reflexivity. Qed.

(** A request that could not be sent. *)
Example request_error_wraps_message :
  fst (kongRequest (answering (inl (mkError AxiosError "Invalid URL" None false)))
         us_client "/control-planes" None None quiet_world)
  = inl (new_Error
           "Request Error: Invalid URL. Please check your request parameters and try again.").
Proof. reflexivity. Qed.

(** ** Construction *)

(** The outcome of a call does not depend on the environment of the world
    it runs in: the credential and the region were read at construction. *)
Lemma kongRequest_ignores_env
    (axios : list AxiosRequestConfig -> AxiosRequestConfig -> JsError + AxiosResponse)
    (this : KongApi) endpoint method data (e1 e2 : ProcessEnv) lines history :
  fst (kongRequest axios this endpoint method data (mkWorld e1 lines history))
  = fst (kongRequest axios this endpoint method data (mkWorld e2 lines history))
  /\ sent (snd (kongRequest axios this endpoint method data (mkWorld e1 lines history)))
     = sent (snd (kongRequest axios this endpoint method data (mkWorld e2 lines history))).
Proof.
  split; [|now rewrite !kongRequest_sent].
  run_eff.
  destruct (axios _ _) as [error|response]; cbn; [|reflexivity].
  destruct (err_response error) as [response|].
  - unfold remote_error.
    destruct (resp_data response) as [| | | |xs|ps]; cbn; reflexivity.
  - destruct (err_request error); reflexivity.
Qed.



(** Explicit options win over the environment, the environment over the
    default region. *)
Example constructor_resolution_order :
  fst (constructor (Some (mkOptions (Some "kpat_a") None))
         (mkWorld (mkEnv (Some "eu") (Some "kpat_b")) [] []))
  = inr (mkKongApi "https://eu.api.konghq.com/v2" "kpat_a").
Proof. reflexivity. Qed.

(** ** Query strings *)

Section QueryStrings.

Lemma separators_append (a b : string) :
  separators (a ++ b) = separators a + separators b.
Proof. induction a as [|c a IH]; simpl; [reflexivity | rewrite IH; lia]. Qed.

Lemma separators_encode_unit (c : ascii) : separators (Js.encode_unit c) = 0.
Proof. destruct c as [[] [] [] [] [] [] [] []]; vm_compute; reflexivity. Qed.

Lemma separators_encodeURIComponent (s : string) :
  separators (Js.encodeURIComponent s) = 0.
Proof.
  induction s as [|c s IH]; simpl; [reflexivity|].
  now rewrite separators_append, separators_encode_unit, IH.
Qed.

Lemma separators_digits (d : Decimal.uint) :
  separators (NilEmpty.string_of_uint d) = 0.
Proof. induction d; simpl; auto. Qed.

Lemma separators_number (n : Z) : separators (Js.number_to_string n) = 0.
Proof.
  unfold Js.number_to_string, NilZero.string_of_int, NilZero.string_of_uint.
  destruct (Z.to_int n) as [d|d]; destruct d; simpl; auto using separators_digits.
Qed.

Lemma separators_boolean (b : bool) : separators (Js.boolean_to_string b) = 0.
Proof. now destruct b. Qed.

(** A conditional append is the append of a conditional pair. *)
Lemma if_number_append (x : option Z) (e : string) (f : Z -> string) :
  if_number x (fun n => e ++ f n) e = e ++ if_number x f "".
Proof.
  unfold if_number. destruct x as [n|]; [destruct (Js.truthy_number n)|];
    now rewrite ?append_nil_r.
Qed.

Lemma if_string_append (x : option string) (e : string) (f : string -> string) :
  if_string x (fun s => e ++ f s) e = e ++ if_string x f "".
Proof.
  unfold if_string. destruct x as [s|]; [destruct (Js.truthy_string s)|];
    now rewrite ?append_nil_r.
Qed.

Lemma if_defined_append {B} (x : option B) (e : string) (f : B -> string) :
  if_defined x (fun b => e ++ f b) e = e ++ if_defined x f "".
Proof. unfold if_defined. destruct x; now rewrite ?append_nil_r. Qed.

Lemma pair_of_number (k : string) (x : option Z) :
  pair_of kept (number_param k x)
  = if_number x (fun n => "&" ++ k ++ "=" ++ Js.number_to_string n) "".
Proof. now destruct x. Qed.

Lemma pair_of_text (k : string) (x : option string) :
  pair_of kept (text_param k x)
  = if_string x (fun s => "&" ++ k ++ "=" ++ Js.encodeURIComponent s) "".
Proof. now destruct x. Qed.

Lemma pair_of_raw (k : string) (x : option string) :
  pair_of kept (raw_param k x) = if_string x (fun s => "&" ++ k ++ "=" ++ s) "".
Proof. now destruct x. Qed.

Lemma pair_of_flag (k : string) (x : option bool) :
  pair_of kept (flag_param k x)
  = if_defined x (fun b => "&" ++ k ++ "=" ++ Js.boolean_to_string b) "".
Proof. now destruct x. Qed.



(** A value that is a number, a flag or encoded text holds no separator. *)
Lemma render_separators (encode : bool) (v : ParamValue) :
  (forall s, v = PText s -> encode = true) ->
  separators (render encode v) = 0.
Proof.
  intros H. destruct v as [n|s|b]; simpl.
  - apply separators_number.
  - rewrite (H s eq_refl). apply separators_encodeURIComponent.
  - apply separators_boolean.
Qed.

End QueryStrings.

Ltac factor_appends :=
  cbv zeta;
  repeat (rewrite if_number_append || rewrite if_string_append
          || rewrite if_defined_append).

Ltac query_equation :=
  intros; cbv beta delta [listDevPortalSubscriptions_appended];
  cbn [arg_endpoint query_string];
  rewrite ?pair_of_number, ?pair_of_text, ?pair_of_raw, ?pair_of_flag;
  factor_appends; rewrite ?append_assoc, ?append_nil_r; reflexivity.

Section QueryBuilders.


Lemma listControlPlaneGroupMemberships_endpoint groupId pageSize pageAfter :
  arg_endpoint (listControlPlaneGroupMemberships_args groupId pageSize pageAfter)
  = "/control-planes/" ++ groupId ++ "/group-memberships?page[size]="
    ++ Js.number_to_string (with_default 10%Z pageSize)
    ++ query_string kept [ raw_param "page[after]" pageAfter ].
Proof. unfold listControlPlaneGroupMemberships_args. query_equation. Qed.

Lemma core_entities_endpoint entity controlPlaneId size offset :
  arg_endpoint (core_entities_args entity controlPlaneId size offset)
  = "/control-planes/" ++ controlPlaneId ++ "/core-entities/" ++ entity ++ "?size="
    ++ Js.number_to_string (with_default 100%Z size)
    ++ query_string kept [ raw_param "offset" offset ].
Proof. unfold core_entities_args. query_equation. Qed.




Lemma listDevPortalSubscriptions_endpoint
    controlPlaneId applicationId apiId pageSize pageNumber status sort :
  arg_endpoint (listDevPortalSubscriptions_args controlPlaneId applicationId apiId
                  pageSize pageNumber status sort)
  = "/v3/subscriptions?page[size]=" ++ Js.number_to_string (with_default 10%Z pageSize)
    ++ query_string kept
         (listDevPortalSubscriptions_appended applicationId apiId pageNumber status sort).
Proof. unfold listDevPortalSubscriptions_args. query_equation. Qed.

End QueryBuilders.





(** ** Falsy arguments *)


Example cloud_gateway_false_is_sent :
  arg_endpoint (listControlPlanes_args None (Some 0%Z) None None (Some false) None None)
  = "/control-planes?page[size]=10&filter[cloud_gateway]=false".
Proof. reflexivity. Qed.

(** ** The control plane argument of the dev-portal operations *)

(** C6. Two calls of a dev-portal operation that differ in [controlPlaneId]
    only build the same endpoint, method and body, and so run alike: the
    same request is sent, the same result comes back and the same world is
    left. *)
Theorem dev_portal_ignores_controlPlaneId
    (axios : list AxiosRequestConfig -> AxiosRequestConfig -> JsError + AxiosResponse)
    (this : KongApi) (w : World) (cp1 cp2 : string) :
  (forall pageSize pageNumber filterName filterPublished sort,
     listDevPortalApis_args cp1 pageSize pageNumber filterName filterPublished sort
     = listDevPortalApis_args cp2 pageSize pageNumber filterName filterPublished sort
     /\ listDevPortalApis axios this cp1 pageSize pageNumber filterName
          filterPublished sort w
        = listDevPortalApis axios this cp2 pageSize pageNumber filterName
            filterPublished sort w)
  /\ (forall name description,
        createDevPortalApplication_args cp1 name description
        = createDevPortalApplication_args cp2 name description
        /\ createDevPortalApplication axios this cp1 name description w
           = createDevPortalApplication axios this cp2 name description w)
  /\ (forall pageSize pageNumber filterName sort,
        listDevPortalApplications_args cp1 pageSize pageNumber filterName sort
        = listDevPortalApplications_args cp2 pageSize pageNumber filterName sort
        /\ listDevPortalApplications axios this cp1 pageSize pageNumber filterName
             sort w
           = listDevPortalApplications axios this cp2 pageSize pageNumber filterName
               sort w)
  /\ (forall apiId applicationId,
        createDevPortalSubscription_args cp1 apiId applicationId
        = createDevPortalSubscription_args cp2 apiId applicationId
        /\ createDevPortalSubscription axios this cp1 apiId applicationId w
           = createDevPortalSubscription axios this cp2 apiId applicationId w)
  /\ (forall applicationId apiId pageSize pageNumber status sort,
        listDevPortalSubscriptions_args cp1 applicationId apiId pageSize pageNumber
          status sort
        = listDevPortalSubscriptions_args cp2 applicationId apiId pageSize pageNumber
            status sort
        /\ listDevPortalSubscriptions axios this cp1 applicationId apiId pageSize
             pageNumber status sort w
           = listDevPortalSubscriptions axios this cp2 applicationId apiId pageSize
               pageNumber status sort w)
  /\ (forall subscriptionId name expiresIn,
        createDevPortalApiKey_args cp1 subscriptionId name expiresIn
        = createDevPortalApiKey_args cp2 subscriptionId name expiresIn
        /\ createDevPortalApiKey axios this cp1 subscriptionId name expiresIn w
           = createDevPortalApiKey axios this cp2 subscriptionId name expiresIn w).
Proof. repeat split. Qed.

(** The control plane does reach the request of a configuration listing. *)
Example configuration_listing_uses_controlPlaneId :
  arg_endpoint (listServices_args "cp-1" None None)
  <> arg_endpoint (listServices_args "cp-2" None None).
Proof. discriminate. Qed.

(** ** Analytics *)

(** C7, as the code has it. [queryApiRequests] sends one POST to
    [/api-requests] with the body [{time_range, filters, size}]. Its
    time-range argument is a string, which it wraps: [time_range] is the
    object [{type: "relative", time_range: timeRange}], with the argument
    inside as it was given and the tag always ["relative"]. The filters
    default to the empty list and the size to 100. *)
Theorem queryApiRequests_envelope
    (axios : list AxiosRequestConfig -> AxiosRequestConfig -> JsError + AxiosResponse)
    (this : KongApi) (timeRange : string) (filters : option (list value))
    (maxResults : option Z) (w : World) :
  let body :=
    VObject
      [ ("time_range",
         VObject [ ("type", VString "relative"); ("time_range", VString timeRange) ]);
        ("filters", VArray (with_default [] filters));
        ("size", VNumber (with_default 100%Z maxResults)) ] in
  queryApiRequests_args timeRange filters maxResults
  = mkArgs "/api-requests" (Some "POST") (Some body)
  /\ sent (snd (queryApiRequests axios this timeRange filters maxResults w))
     = (sent w
          ++ [mkConfig "POST" (baseUrl this ++ "/api-requests") (request_headers this)
                (Some body)])%list
  /\ (forall range,
        Value.get body "time_range" = Some range ->
        Value.get range "type" = Some (VString "relative")
        /\ Value.get range "time_range" = Some (VString timeRange)).
Proof.
  intros body. split; [reflexivity|]. split.
  - unfold queryApiRequests, send. rewrite kongRequest_sent. reflexivity.
  - intros range [= <-]. split; reflexivity.
Qed.

(** C7 as the claim words it fails: the argument ["24H"] is not what goes
    out under [time_range], it is wrapped in an object tagged
    ["relative"]. *)
Lemma queryApiRequests_wraps_time_range :
  exists body,
    arg_data (queryApiRequests_args "24H" None None) = Some body
    /\ Value.get body "time_range"
       = Some (VObject [ ("type", VString "relative"); ("time_range", VString "24H") ])
    /\ Value.get body "time_range" <> Some (VString "24H").
Proof. eexists. repeat split. discriminate. Qed.

(** ** The tool catalog *)

Section CatalogFacts.

Import Catalog.

Variable ZodObject : Type.
Variable prompts : PromptsModule.
Variable parameters_ : ParametersModule ZodObject.

Lemma alloc_all_spec (os : list (object ZodObject)) (h : heap ZodObject) :
  alloc_all os h = (seq (List.length h) (List.length os), (h ++ os)%list).
Proof.
  revert h; induction os as [|o os IH]; intros h; simpl.
  - now rewrite app_nil_r.
  - rewrite IH, length_app, <- app_assoc. simpl.
    now replace (List.length h + 1) with (S (List.length h)) by lia.
Qed.

Lemma read_tools_fresh (h more : heap ZodObject) (ts : list (Tool ZodObject)) :
  read_tools ((h ++ map ToolObject ts) ++ more)%list
    (seq (List.length h) (List.length ts))
  = Some ts.
Proof.
  revert h; induction ts as [|t ts IH]; intros h; [reflexivity|].
  cbn [List.length seq read_tools map].
  assert (Hhere : read_tool ((h ++ ToolObject t :: map ToolObject ts) ++ more)%list
                    (List.length h) = Some t).
  { unfold read_tool.
    rewrite <- app_assoc, nth_error_app2 by lia.
    now rewrite Nat.sub_diag. }
  rewrite Hhere.
  specialize (IH (h ++ [ToolObject t])%list).
  rewrite length_app, Nat.add_1_r, <- (app_assoc h) in IH.
  cbn [app List.length] in IH.
  now rewrite IH.
Qed.

Lemma tools_spec (h : heap ZodObject) :
  tools ZodObject prompts parameters_ h
  = (List.length h + 16,
     (h ++ map ToolObject (tool_literals ZodObject prompts parameters_)
        ++ [ArrayObject (seq (List.length h) 16)])%list).
Proof.
  unfold tools. rewrite alloc_all_spec. unfold alloc.
  rewrite length_app, length_map, <- app_assoc. reflexivity.
Qed.

(** The array of one invocation, read in any later store that extends the
    store it left. *)
Lemma tools_read_later (h more : heap ZodObject) :
  let a := fst (tools ZodObject prompts parameters_ h) in
  let h1 := snd (tools ZodObject prompts parameters_ h) in
  elements_of (h1 ++ more)%list a = Some (seq (List.length h) 16)
  /\ read_array (h1 ++ more)%list a = Some (tool_literals ZodObject prompts parameters_).
Proof.
  rewrite tools_spec. cbn [fst snd].
  assert (E : elements_of
                ((h ++ map ToolObject (tool_literals ZodObject prompts parameters_)
                    ++ [ArrayObject (seq (List.length h) 16)]) ++ more)%list
                (List.length h + 16)
              = Some (seq (List.length h) 16)).
  { unfold elements_of.
    rewrite <- app_assoc, nth_error_app2 by lia.
    rewrite <- app_assoc, nth_error_app2 by (rewrite length_map; cbn; lia).
    rewrite length_map.
    replace (List.length h + 16 - List.length h
             - List.length (tool_literals ZodObject prompts parameters_))
      with 0 by (cbn; lia).
    reflexivity. }
  split; [exact E|].
  unfold read_array. rewrite E.
  pose proof (read_tools_fresh h ([ArrayObject (seq (List.length h) 16)] ++ more)%list
                (tool_literals ZodObject prompts parameters_)) as R.
  rewrite <- !app_assoc in *. exact R.
Qed.

Lemma skip_run_absent (c : string) (l : list string) (k : nat) :
  existsb (String.eqb c) (skip_run c l) = false ->
  nth_error l k = Some c ->
  forall j, j <= k -> nth_error l j = Some c.
Proof.
  revert k; induction l as [|x l IH]; intros k Hskip Hk j Hj.
  - destruct k; discriminate.
  - cbn [skip_run] in Hskip. destruct (String.eqb_spec x c) as [->|Hne].
    + destruct j as [|j]; [reflexivity|].
      destruct k as [|k]; [lia|]. cbn in *. apply (IH k); auto; lia.
    + exfalso.
      assert (Hin : In c (x :: l)) by (eapply nth_error_In; eauto).
      assert (Hex : existsb (String.eqb c) (x :: l) = true).
      { apply existsb_exists. exists c. split; [exact Hin | apply String.eqb_refl]. }
      congruence.
Qed.

Lemma contiguousb_sound (l : list string) : contiguousb l = true -> contiguous l.
Proof.
  induction l as [|c0 l IH]; intros H i j k c Hij Hjk Hi Hk.
  - destruct i; discriminate.
  - cbn [contiguousb] in H. apply andb_prop in H as [Hrun Hrest].
    apply negb_true_iff in Hrun.
    destruct i as [|i].
    + cbn in Hi. injection Hi as ->.
      destruct j as [|j]; [reflexivity|].
      destruct k as [|k]; [lia|]. cbn in *.
      apply (skip_run_absent c l k); auto; lia.
    + destruct j as [|j]; [lia|]. destruct k as [|k]; [lia|].
      cbn in *. apply (IH Hrest i j k); auto; lia.
Qed.

End CatalogFacts.

Section CatalogBuilder.

Import Catalog.

Variable ZodObject : Type.
Variable prompts : PromptsModule.
Variable parameters_ : ParametersModule ZodObject.

Lemma tool_methods :
  map method (tool_literals ZodObject prompts parameters_)
  = [ "query_api_requests"; "get_consumer_requests";
      "list_services"; "list_routes"; "list_consumers"; "list_plugins";
      "list_control_planes"; "get_control_plane";
      "list_control_plane_group_memberships"; "check_control_plane_group_membership";
      "list_apis"; "list_portals"; "subscribe_to_api"; "generate_api_key";
      "list_applications"; "list_subscriptions" ].
Proof. reflexivity. Qed.

Lemma tool_categories :
  map category (tool_literals ZodObject prompts parameters_)
  = [ "analytics"; "analytics";
      "configuration"; "configuration"; "configuration"; "configuration";
      "control_planes"; "control_planes"; "control_planes"; "control_planes";
      "dev_portal"; "dev_portal"; "dev_portal"; "dev_portal"; "dev_portal";
      "dev_portal" ].
Proof. reflexivity. Qed.

(** C5. Two invocations of [tools()], the second in the store the first
    left, return two different arrays whose entries are sixteen new objects
    each, none shared; read in depth both arrays hold the same records, in
    the same order; nothing that was in the store before is changed. The
    method identifiers of the records are pairwise different, and the
    entries of one category are next to each other. *)
Theorem tools_catalog_is_pure (h0 : heap ZodObject) :
  let first := tools ZodObject prompts parameters_ h0 in
  let second := tools ZodObject prompts parameters_ (snd first) in
  let catalog := tool_literals ZodObject prompts parameters_ in
  fst first <> fst second
  /\ (exists entries1 entries2,
        elements_of (snd second) (fst first) = Some entries1
        /\ elements_of (snd second) (fst second) = Some entries2
        /\ List.length entries1 = 16 /\ List.length entries2 = 16
        /\ (forall l, In l entries1 -> ~ In l entries2)
        /\ (forall l, In l entries1 \/ In l entries2 -> List.length h0 <= l))
  /\ read_array (snd second) (fst first) = Some catalog
  /\ read_array (snd second) (fst second) = Some catalog
  /\ (forall l, l < List.length h0 -> nth_error (snd second) l = nth_error h0 l)
  /\ NoDup (map method catalog)
  /\ contiguous (map category catalog)
  /\ (forall t, In t catalog ->
        In (category t) ["analytics"; "configuration"; "control_planes"; "dev_portal"]).
Proof.
  intros first second catalog.
  assert (Hlen1 : List.length (snd first) = List.length h0 + 17).
  { subst first. rewrite tools_spec. cbn [snd].
    rewrite !length_app, length_map. cbn. lia. }
  assert (Hsecond : snd second
                    = (snd first
                         ++ (map ToolObject catalog
                               ++ [ArrayObject (seq (List.length (snd first)) 16)]))%list).
  { subst second. rewrite tools_spec. reflexivity. }
  assert (Ha1 : fst first = List.length h0 + 16)
    by (subst first; now rewrite tools_spec).
  assert (Ha2 : fst second = List.length (snd first) + 16)
    by (subst second; now rewrite tools_spec).
  destruct (tools_read_later ZodObject prompts parameters_ h0
              (map ToolObject catalog
                 ++ [ArrayObject (seq (List.length (snd first)) 16)])%list)
    as [E1 R1].
  destruct (tools_read_later ZodObject prompts parameters_ (snd first) [])
    as [E2 R2].
  rewrite app_nil_r in E2, R2.
  fold first in E1, R1. fold second in E2, R2. rewrite <- Hsecond in E1, R1.
  split; [lia|].
  split.
  { exists (seq (List.length h0) 16), (seq (List.length (snd first)) 16).
    repeat split; auto using length_seq.
    - intros l H1 H2. apply in_seq in H1. apply in_seq in H2. lia.
    - intros l [H|H]; apply in_seq in H; lia. }
  split; [exact R1|]. split; [exact R2|].
  split.
  { intros l Hl. rewrite Hsecond. subst first. rewrite tools_spec. cbn [snd].
    rewrite <- app_assoc. now rewrite nth_error_app1 by lia. }
  split.
  { subst catalog. rewrite tool_methods.
    repeat (constructor; [cbn [In]; intuition discriminate|]). constructor. }
  split.
  { subst catalog. rewrite tool_categories. apply contiguousb_sound. reflexivity. }
  intros t Ht. subst catalog. cbn [tool_literals In] in Ht.
  repeat (destruct Ht as [<-|Ht]; [cbn; tauto|]). contradiction.
Qed.

End CatalogBuilder.

(** Two invocations from the empty store: the arrays are at addresses 16
    and 33, their entries at 0..15 and 17..32. *)
Example tools_twice_from_empty_store :
  let prompts :=
    Catalog.mkPrompts (fun _ => "p1") (fun _ => "p2") (fun _ => "p3") (fun _ => "p4")
      (fun _ => "p5") (fun _ => "p6") (fun _ => "p7") (fun _ => "p8") (fun _ => "p9")
      (fun _ => "p10") (fun _ => "p11") (fun _ => "p12") (fun _ => "p13")
      (fun _ => "p14") (fun _ => "p15") (fun _ => "p16") in
  let schemas :=
    Catalog.mkParameters nat (fun _ => 1) (fun _ => 2) (fun _ => 3) (fun _ => 4)
      (fun _ => 5) (fun _ => 6) (fun _ => 7) (fun _ => 8) (fun _ => 9) (fun _ => 10)
      (fun _ => 11) (fun _ => 12) (fun _ => 13) (fun _ => 14) (fun _ => 15)
      (fun _ => 16) in
  let first := Catalog.tools nat prompts schemas [] in
  let second := Catalog.tools nat prompts schemas (snd first) in
  fst first = 16 /\ fst second = 33
  /\ Catalog.elements_of (snd second) (fst first) = Some (seq 0 16)
  /\ Catalog.elements_of (snd second) (fst second) = Some (seq 17 16)
  /\ Catalog.read_array (snd second) (fst first)
     = Catalog.read_array (snd second) (fst second).
Proof. repeat split. Qed.

(** * Further properties of the client and of the catalog *)

(** ** What a call does to the world *)

Section CallFootprint.

Variable axios : list AxiosRequestConfig -> AxiosRequestConfig -> JsError + AxiosResponse.

Lemma kongRequest_resolved
    (this : KongApi) endpoint method data (w : World) (response : AxiosResponse) :
  axios (sent w) (request_config this endpoint method data) = inr response ->
  fst (kongRequest axios this endpoint method data w) = inr (resp_data response).
Proof.
  intros Hax. run_eff.
  fold (resolved_url this endpoint) (request_headers this) (request_body data)
       (request_config this endpoint method data).
  now rewrite Hax.
Qed.

(** A request that the transport resolves returns the body of the response
    as it is, whatever its status, after four console lines: the URL, the
    sending notice, the status and the body. *)
Theorem kongRequest_returns_response_data
    (this : KongApi) (endpoint : string) (method : option string)
    (data : option value) (w : World) (response : AxiosResponse) :
  axios (sent w) (request_config this endpoint method data) = inr response ->
  kongRequest axios this endpoint method data w
  = (inr (resp_data response),
     mkWorld (env w)
       (console w
          ++ [ Line ("Making request to: " ++ resolved_url this endpoint);
               Line "Sending request...";
               Line ("Received response with status: "
                     ++ Js.number_to_string (resp_status response));
               ResponseDataLine (resp_data response) ])
       (sent w ++ [request_config this endpoint method data])).
Proof.
  intros Hax. run_eff.
  fold (resolved_url this endpoint) (request_headers this) (request_body data)
       (request_config this endpoint method data).
  rewrite Hax. cbn. rewrite <- !app_assoc. reflexivity.
Qed.

Lemma kongRequest_console
    (this : KongApi) endpoint method data (w : World) :
  console (snd (kongRequest axios this endpoint method data w))
  = (console w
       ++ [ Line ("Making request to: " ++ resolved_url this endpoint);
            Line "Sending request..." ]
       ++ match axios (sent w) (request_config this endpoint method data) with
          | inr response =>
              [ Line ("Received response with status: "
                      ++ Js.number_to_string (resp_status response));
                ResponseDataLine (resp_data response) ]
          | inl error => [ ApiRequestErrorLine (err_message error) ]
          end)%list.
Proof.
  run_eff.
  fold (resolved_url this endpoint) (request_headers this) (request_body data)
       (request_config this endpoint method data).
  destruct (axios _ _) as [error|response]; cbn.
  - destruct (err_response error) as [response|].
    + rewrite remote_error_world. cbn. now rewrite <- !app_assoc.
    + destruct (err_request error); cbn; now rewrite <- !app_assoc.
  - now rewrite <- !app_assoc.
Qed.

(** Whatever the outcome, a call leaves the environment as it was, sends
    one request, and adds to the console without touching what was there:
    the URL and the sending notice, then either the status and the body of
    the response, or the message of the failure. *)
Theorem kongRequest_footprint
    (this : KongApi) (endpoint : string) (method : option string)
    (data : option value) (w : World) :
  let run := kongRequest axios this endpoint method data w in
  env (snd run) = env w
  /\ sent (snd run) = (sent w ++ [request_config this endpoint method data])%list
  /\ console (snd run)
     = (console w
          ++ [ Line ("Making request to: " ++ resolved_url this endpoint);
               Line "Sending request..." ]
          ++ match axios (sent w) (request_config this endpoint method data) with
             | inr response =>
                 [ Line ("Received response with status: "
                         ++ Js.number_to_string (resp_status response));
                   ResponseDataLine (resp_data response) ]
             | inl error => [ ApiRequestErrorLine (err_message error) ]
             end)%list.
Proof.
  intros run. subst run.
  split; [apply kongRequest_env|]. split; [apply kongRequest_sent|].
  apply kongRequest_console.
Qed.

(** The credential does not reach the console: two clients with the same
    base URL and different credentials, whose requests meet the same
    outcome, leave the same console. *)
Theorem kongRequest_does_not_log_credential
    (this1 this2 : KongApi) (endpoint : string) (method : option string)
    (data : option value) (w : World) :
  baseUrl this1 = baseUrl this2 ->
  axios (sent w) (request_config this1 endpoint method data)
  = axios (sent w) (request_config this2 endpoint method data) ->
  console (snd (kongRequest axios this1 endpoint method data w))
  = console (snd (kongRequest axios this2 endpoint method data w))
  /\ fst (kongRequest axios this1 endpoint method data w)
     = fst (kongRequest axios this2 endpoint method data w).
Proof.
  intros Hbase Hax. split.
  - rewrite !kongRequest_console, Hax. unfold resolved_url. now rewrite Hbase.
  - destruct (axios (sent w) (request_config this2 endpoint method data))
      as [error|response] eqn:E2.
    + rewrite (kongRequest_rejected axios this1 endpoint method data w error Hax).
      now rewrite (kongRequest_rejected axios this2 endpoint method data w error E2).
    + rewrite (kongRequest_resolved this1 endpoint method data w response Hax).
      now rewrite (kongRequest_resolved this2 endpoint method data w response E2).
Qed.

End CallFootprint.

Lemma kongRequest_returns_response_data_witness :
  fst (kongRequest (answering (inr (mkResponse 204 (VString "")))) us_client
         "/control-planes/cp-1" None None quiet_world)
  = inr (VString "").
Proof.
  rewrite (kongRequest_returns_response_data
             (answering (inr (mkResponse 204 (VString "")))) us_client
             "/control-planes/cp-1" None None quiet_world
             (mkResponse 204 (VString "")) eq_refl).
  reflexivity.
Defined.

Lemma kongRequest_does_not_log_credential_witness :
  console (snd (kongRequest (answering (inr (mkResponse 200 VNull)))
                  (mkKongApi "https://eu.api.konghq.com/v2" "kpat_one")
                  "/control-planes" None None quiet_world))
  = console (snd (kongRequest (answering (inr (mkResponse 200 VNull)))
                    (mkKongApi "https://eu.api.konghq.com/v2" "kpat_two")
                    "/control-planes" None None quiet_world)).
Proof.
  apply (kongRequest_does_not_log_credential (answering (inr (mkResponse 200 VNull)))
           (mkKongApi "https://eu.api.konghq.com/v2" "kpat_one")
           (mkKongApi "https://eu.api.konghq.com/v2" "kpat_two")
           "/control-planes" None None quiet_world eq_refl eq_refl).
Defined.

(** ** The request of each operation *)


Section OperationRequests.

Variable axios : list AxiosRequestConfig -> AxiosRequestConfig -> JsError + AxiosResponse.
Variable this : KongApi.
Variable w : World.



End OperationRequests.

(** ** Dev-portal URLs *)

Section DevPortalUrls.













End DevPortalUrls.

Section CleanRegion.

Variable axios : list AxiosRequestConfig -> AxiosRequestConfig -> JsError + AxiosResponse.



End CleanRegion.


(** ** Construction *)

(** The constructor never throws and sends nothing. The credential is the
    first non-empty one of the option and of [KONNECT_ACCESS_TOKEN], and
    the empty string when there is none; the region is the first non-empty
    one of the option and of [KONNECT_REGION], and [us] when there is none,
    so that an empty string given as an option counts as no option. The
    warning is written exactly when the credential is empty. *)
Theorem constructor_resolves_configuration
    (options : option KongApiOptions) (w : World) :
  let given := with_default (mkOptions None None) options in
  let credential :=
    first_nonempty [opt_apiKey given; KONNECT_ACCESS_TOKEN (env w)] "" in
  let region :=
    first_nonempty [opt_apiRegion given; KONNECT_REGION (env w)] API_REGIONS.US in
  constructor options w
  = (inr (mkKongApi ("https://" ++ region ++ ".api.konghq.com/v2") credential),
     mkWorld (env w)
       (if Js.truthy_string credential then console w
        else (console w ++ [Line missing_token_warning])%list)
       (sent w))
  /\ region <> "".
Proof.
  intros given credential region. subst given credential region.
  destruct w as [[envRegion envToken] lines history].
  destruct options as [[optKey optRegion]|];
    cbn [with_default opt_apiKey opt_apiRegion env KONNECT_REGION KONNECT_ACCESS_TOKEN];
    unfold constructor, bind, read_env, ret, console_error;
    cbn [env console sent KONNECT_REGION KONNECT_ACCESS_TOKEN opt_apiKey opt_apiRegion
         with_default];
    repeat match goal with
           | x : option string |- _ => destruct x as [[|? ?]|]
           end;
    split; first [reflexivity | discriminate].
Qed.

Section ExplicitOptions.

Variable axios : list AxiosRequestConfig -> AxiosRequestConfig -> JsError + AxiosResponse.

Lemma constructor_explicit (credential region : string) (w : World) :
  credential <> "" ->
  region <> "" ->
  constructor (Some (mkOptions (Some credential) (Some region))) w
  = (inr (mkKongApi ("https://" ++ region ++ ".api.konghq.com/v2") credential), w).
Proof.
  intros Hcredential Hregion.
  destruct credential as [|c credential]; [contradiction|].
  destruct region as [|r region]; [contradiction|].
  destruct w as [e lines history]. reflexivity.
Qed.

(** A client built from a non-empty credential and a non-empty region
    given as options owes nothing to the environment: a request to an
    endpoint outside [/v3] goes to [https://{region}.api.konghq.com/v2]
    followed by the endpoint, with [Authorization: Bearer {credential}],
    whatever [KONNECT_REGION] and [KONNECT_ACCESS_TOKEN] hold, and no
    warning is written before it. *)
Theorem explicit_options_decide_the_request
    (credential region endpoint : string) (method : option string)
    (data : option value) (w : World) :
  credential <> "" ->
  region <> "" ->
  Js.startsWith endpoint "/v3" = false ->
  let run :=
    bind (constructor (Some (mkOptions (Some credential) (Some region))))
      (fun this => kongRequest axios this endpoint method data) in
  sends_only run w
    (mkConfig (with_default "GET" method)
       ("https://" ++ region ++ ".api.konghq.com/v2" ++ endpoint)
       [ ("Authorization", "Bearer " ++ credential);
         ("Content-Type", "application/json");
         ("Accept", "application/json") ]
       (request_body data))
  /\ exists rest,
       console (snd (run w))
       = (console w
            ++ Line ("Making request to: https://" ++ region ++ ".api.konghq.com/v2"
                     ++ endpoint) :: rest)%list.
Proof.
  intros Hcredential Hregion Hv3 run. subst run.
  unfold sends_only, bind.
  rewrite (constructor_explicit credential region w Hcredential Hregion).
  set (this := mkKongApi ("https://" ++ region ++ ".api.konghq.com/v2") credential).
  split.
  - rewrite kongRequest_sent. unfold request_config, resolved_url.
    rewrite Hv3. cbn [baseUrl apiKey request_headers this].
    now rewrite !append_assoc.
  - rewrite kongRequest_console. unfold resolved_url. rewrite Hv3.
    cbn [baseUrl this]. rewrite !append_assoc. eexists. reflexivity.
Qed.

End ExplicitOptions.

Lemma explicit_options_decide_the_request_witness :
  sends_only
    (bind (constructor (Some (mkOptions (Some "kpat_a") (Some "eu"))))
       (fun this =>
          kongRequest (answering (inr (mkResponse 200 VNull))) this
            "/control-planes/cp-1" None None))
    (mkWorld (mkEnv (Some "au") (Some "kpat_b")) [] [])
    (mkConfig "GET" "https://eu.api.konghq.com/v2/control-planes/cp-1"
       [ ("Authorization", "Bearer kpat_a");
         ("Content-Type", "application/json");
         ("Accept", "application/json") ]
       None).
Proof.
  refine (proj1 (explicit_options_decide_the_request
                   (answering (inr (mkResponse 200 VNull)))
                   "kpat_a" "eu" "/control-planes/cp-1" None None
                   (mkWorld (mkEnv (Some "au") (Some "kpat_b")) [] [])
                   _ _ eq_refl)); discriminate.
Defined.

(** ** The text of a remote error *)

Section RemoteErrorText.

Variable axios : list AxiosRequestConfig -> AxiosRequestConfig -> JsError + AxiosResponse.




End RemoteErrorText.


(** ** Identifiers and cursors in the endpoint *)

Section RawValues.

Ltac count_literals :=
  repeat match goal with
         | |- context [separators ?s] =>
             lazymatch s with String _ _ => idtac | EmptyString => idtac end;
             let v := eval vm_compute in (separators s) in
             change (separators s) with v
         end.

Lemma separators_pair_raw (k : string) (x : option string) :
  separators k = 0 ->
  separators (pair_of kept (raw_param k x)) = raw_separators x.
Proof.
  intros Hk. unfold pair_of, raw_param, raw_separators.
  destruct x as [s|]; cbn [option_map qp_value qp_name qp_encode kept render];
    [|reflexivity].
  destruct (Js.truthy_string s); [|reflexivity].
  change ("&" ++ k ++ "=" ++ s) with (String "&" (k ++ String "=" s)).
  cbn [separators]. rewrite separators_append. cbn [separators]. rewrite Hk.
  reflexivity.
Qed.

Lemma separators_pair_clean (q : QueryParam) :
  separators (qp_name q) = 0 ->
  (forall s, qp_value q = Some (PText s) -> qp_encode q = true) ->
  separators (pair_of kept q) = if gives_pair kept q then 1 else 0.
Proof.
  intros Hname Henc. unfold pair_of, gives_pair.
  destruct (qp_value q) as [v|] eqn:E; [|reflexivity].
  destruct (kept v); [|reflexivity].
  change ("&" ++ qp_name q ++ "=" ++ render (qp_encode q) v)
    with (String "&" (qp_name q ++ String "=" (render (qp_encode q) v))).
  cbn [separators]. rewrite separators_append. cbn [separators].
  rewrite Hname. cbn [Nat.add].
  rewrite (render_separators (qp_encode q) v); [reflexivity|].
  intros s ->. now apply (Henc s).
Qed.

(** Identifiers and cursors are copied into the endpoint as they are, so
    each [&] and [?] inside one becomes a separator of the URL: the number
    of separators of the endpoint is that of the fixed text and of the
    pairs, plus those of the identifier, of the cursor and of the raw
    filter values. *)
Theorem raw_values_bring_their_separators :
  (forall controlPlaneId,
     separators (arg_endpoint (getControlPlane_args controlPlaneId))
     = separators controlPlaneId
     /\ separators (arg_endpoint (checkControlPlaneGroupMembership_args controlPlaneId))
        = separators controlPlaneId)
  /\ (forall groupId pageSize pageAfter,
        separators
          (arg_endpoint (listControlPlaneGroupMemberships_args groupId pageSize pageAfter))
        = separators groupId + 1 + raw_separators pageAfter)
  /\ (forall entity controlPlaneId size offset,
        separators (arg_endpoint (core_entities_args entity controlPlaneId size offset))
        = separators controlPlaneId + separators entity + 1 + raw_separators offset)
  /\ (forall controlPlaneId applicationId apiId pageSize pageNumber status sort,
        separators
          (arg_endpoint
             (listDevPortalSubscriptions_args controlPlaneId applicationId apiId
                pageSize pageNumber status sort))
        = 1 + (if gives_pair kept (number_param "page[number]" pageNumber) then 1 else 0)
          + raw_separators applicationId + raw_separators apiId
          + raw_separators status
          + (if gives_pair kept (text_param "sort" sort) then 1 else 0)).
Proof.
  split.
  { intros. unfold getControlPlane_args, checkControlPlaneGroupMembership_args.
    cbn [arg_endpoint]. rewrite !separators_append. count_literals. split; lia. }
  split.
  { intros. rewrite listControlPlaneGroupMemberships_endpoint.
    cbn [query_string]. rewrite !separators_append, separators_number.
    rewrite separators_pair_raw by reflexivity.
    count_literals. lia. }
  split.
  { intros. rewrite core_entities_endpoint.
    cbn [query_string]. rewrite !separators_append, separators_number.
    rewrite separators_pair_raw by reflexivity.
    count_literals. lia. }
  intros. rewrite listDevPortalSubscriptions_endpoint.
  unfold listDevPortalSubscriptions_appended. cbn [query_string].
  rewrite !separators_append, separators_number.
  rewrite !separators_pair_raw by reflexivity.
  rewrite (separators_pair_clean (number_param "page[number]" pageNumber));
    [|reflexivity|intros s E; destruct pageNumber; discriminate].
  rewrite (separators_pair_clean (text_param "sort" sort)); [|reflexivity|reflexivity].
  count_literals. lia.
Qed.

Lemma append_cancel_l (a b c : string) : a ++ b = a ++ c -> b = c.
Proof. induction a as [|x a IH]; cbn; intros H; [exact H|]. injection H. exact IH. Qed.

Lemma append_cancel_r (a b s : string) : a ++ s = b ++ s -> a = b.
Proof.
  revert b; induction a as [|x a IH]; intros [|y b] H; cbn in H.
  - reflexivity.
  - apply (f_equal String.length) in H. cbn in H. rewrite length_append in H. lia.
  - apply (f_equal String.length) in H. cbn in H. rewrite length_append in H. lia.
  - injection H as -> H. f_equal. now apply IH.
Qed.

(** The other side of the dev-portal operations: every control-plane and
    configuration operation puts its identifier into the request, so that,
    the other arguments being equal, two identifiers give the same request
    only if they are the same identifier. *)
Theorem control_plane_identifier_decides_the_request :
  (forall id1 id2, getControlPlane_args id1 = getControlPlane_args id2 -> id1 = id2)
  /\ (forall id1 id2,
        checkControlPlaneGroupMembership_args id1
        = checkControlPlaneGroupMembership_args id2 ->
        id1 = id2)
  /\ (forall id1 id2 pageSize pageAfter,
        listControlPlaneGroupMemberships_args id1 pageSize pageAfter
        = listControlPlaneGroupMemberships_args id2 pageSize pageAfter ->
        id1 = id2)
  /\ (forall entity id1 id2 size offset,
        core_entities_args entity id1 size offset
        = core_entities_args entity id2 size offset ->
        id1 = id2).
Proof.
  split.
  { intros id1 id2 H. apply (f_equal arg_endpoint) in H. cbn [getControlPlane_args arg_endpoint] in H.
    now apply append_cancel_l in H. }
  split.
  { intros id1 id2 H. apply (f_equal arg_endpoint) in H.
    cbn [checkControlPlaneGroupMembership_args arg_endpoint] in H.
    apply append_cancel_l in H. now apply append_cancel_r in H. }
  split.
  { intros id1 id2 pageSize pageAfter H. apply (f_equal arg_endpoint) in H.
    rewrite !listControlPlaneGroupMemberships_endpoint in H.
    apply append_cancel_l in H. now apply append_cancel_r in H. }
  intros entity id1 id2 size offset H. apply (f_equal arg_endpoint) in H.
  rewrite !core_entities_endpoint in H.
  apply append_cancel_l in H. now apply append_cancel_r in H.
Qed.

End RawValues.

(** ** Any number of catalog invocations *)

Section CatalogRepeated.

Import Catalog.

Variable ZodObject : Type.
Variable prompts : PromptsModule.
Variable parameters_ : ParametersModule ZodObject.

Lemma tools_repeated_step (n : nat) (h : heap ZodObject) :
  tools_repeated ZodObject prompts parameters_ (S n) h
  = (fst (tools ZodObject prompts parameters_ h)
       :: fst (tools_repeated ZodObject prompts parameters_ n
                 (snd (tools ZodObject prompts parameters_ h))),
     snd (tools_repeated ZodObject prompts parameters_ n
            (snd (tools ZodObject prompts parameters_ h)))).
Proof.
  cbn [tools_repeated].
  destruct (tools ZodObject prompts parameters_ h) as [a h1]. cbn [fst snd].
  now destruct (tools_repeated ZodObject prompts parameters_ n h1).
Qed.

Lemma tools_grows (h : heap ZodObject) :
  exists more,
    snd (tools ZodObject prompts parameters_ h) = (h ++ more)%list
    /\ List.length more = 17
    /\ fst (tools ZodObject prompts parameters_ h) = List.length h + 16.
Proof.
  rewrite tools_spec. eexists. split; [reflexivity|]. split; [|reflexivity].
  rewrite length_app, length_map. reflexivity.
Qed.

Lemma tools_repeated_grows (n : nat) (h : heap ZodObject) :
  exists more,
    snd (tools_repeated ZodObject prompts parameters_ n h) = (h ++ more)%list
    /\ List.length more = 17 * n
    /\ forall a, In a (fst (tools_repeated ZodObject prompts parameters_ n h)) ->
                 List.length h <= a < List.length h + 17 * n.
Proof.
  revert h; induction n as [|n IH]; intros h.
  - exists []. cbn. rewrite app_nil_r. repeat split; try lia; contradiction.
  - rewrite tools_repeated_step. cbn [fst snd].
    destruct (tools_grows h) as [m1 [E1 [L1 A1]]].
    destruct (IH (snd (tools ZodObject prompts parameters_ h))) as [m2 [E2 [L2 A2]]].
    exists (m1 ++ m2)%list. split; [|split].
    + rewrite E2, E1. now rewrite app_assoc.
    + rewrite length_app. lia.
    + intros a [<-|Hin].
      * lia.
      * apply A2 in Hin. rewrite E1, length_app in Hin. lia.
Qed.

(** After any number of invocations of [tools()] every array returned so
    far still reads as the same sixteen records, the arrays are pairwise
    different, each invocation has added seventeen objects to the store,
    and what the store held before is unchanged. *)
Theorem tools_repeated_keeps_every_catalog (n : nat) (h0 : heap ZodObject) :
  let run := tools_repeated ZodObject prompts parameters_ n h0 in
  List.length (fst run) = n
  /\ NoDup (fst run)
  /\ (forall a, In a (fst run) ->
        read_array (snd run) a = Some (tool_literals ZodObject prompts parameters_))
  /\ List.length (snd run) = List.length h0 + 17 * n
  /\ (forall l, l < List.length h0 -> nth_error (snd run) l = nth_error h0 l).
Proof.
  revert h0; induction n as [|n IH]; intros h0 run; subst run.
  - cbn. repeat split; try lia; try constructor; contradiction.
  - rewrite tools_repeated_step. cbn [fst snd].
    set (h1 := snd (tools ZodObject prompts parameters_ h0)).
    destruct (tools_grows h0) as [m1 [E1 [L1 A1]]]. fold h1 in E1.
    destruct (tools_repeated_grows n h1) as [m2 [E2 [L2 A2]]].
    destruct (IH h1) as [Hlen [Hnodup [Hread [Hsize Hkeep]]]].
    assert (Hh1 : List.length h1 = List.length h0 + 17)
      by (rewrite E1, length_app; lia).
    split; [cbn [List.length]; now rewrite Hlen|]. split; [|split; [|split]].
    + constructor; [|exact Hnodup].
      intros Hin. apply A2 in Hin. lia.
    + intros a [<-|Hin]; [|now apply Hread].
      rewrite E2. apply (tools_read_later ZodObject prompts parameters_ h0 m2).
    + rewrite Hsize. lia.
    + intros l Hl. rewrite Hkeep by lia.
      rewrite E1. now apply nth_error_app1.
Qed.

End CatalogRepeated.

(** ** Bodies that are given and not sent *)

